(** * server.js: the OpenAI-to-NIM proxy, as a shallow embedding

    The development follows [src/server.js]: the JavaScript values the
    handler touches, the chat-completions request construction (model
    resolution, defaults), and the streaming transformer (line
    reassembly, line decoding, the reasoning/content merge and the frames
    written to the client).

    Conventions.
    - A JavaScript string is a sequence of UTF-16 code units; the model keeps
      the code units below 256 (type [ascii]), which covers every literal of
      the program.
    - A chunk is a [Buffer]; line 98 decodes each chunk on its own with
      [chunk.toString()].  The listener is first written on the decoded text
      of each chunk (modules [Reassembler] and [Stream]); module [Chunks]
      puts the decoding in front of it.
    - [undefined] is [None] in an [option json].
    - [JSON.parse] and [JSON.stringify] belong to the runtime; the streaming
      section is parametric in them. *)

From Stdlib Require Import Strings.String Strings.Ascii Lists.List Bool Arith Lia.
Import ListNotations.
Open Scope string_scope.

(* ------------------------------------------------------------------ *)
(** ** Strings *)

Module Js.

(** The line feed, ['\n']. *)
Definition LF : string := String "010"%char "".

(** ECMAScript WhiteSpace and LineTerminator code units below 256:
    TAB, LF, VT, FF, CR, SP, NBSP. *)
Definition is_white (c : ascii) : bool :=
  let n := nat_of_ascii c in
  ((9 <=? n) && (n <=? 13) || (n =? 32) || (n =? 160))%nat.

Fixpoint trimStart (s : string) : string :=
  match s with
  | String c r => if is_white c then trimStart r else s
  | EmptyString => EmptyString
  end.

Fixpoint trimEnd (s : string) : string :=
  match s with
  | EmptyString => EmptyString
  | String c r =>
      match trimEnd r with
      | EmptyString => if is_white c then EmptyString else String c EmptyString
      | r' => String c r'
      end
  end.

(** [s.trim()] *)
Definition trim (s : string) : string := trimEnd (trimStart s).

(** [s.startsWith(p)] *)
Definition startsWith (s p : string) : bool := prefix p s.

Fixpoint drop (n : nat) (s : string) : string :=
  match n, s with
  | S k, String _ r => drop k r
  | _, _ => s
  end.

(** [s.replace(pat, rep)] for a string pattern: the first occurrence only.
    ([rep] holds no [$], so it is inserted as it is.) *)
Fixpoint replace (pat rep s : string) : string :=
  if prefix pat s then rep ++ drop (String.length pat) s
  else match s with
       | EmptyString => EmptyString
       | String c r => String c (replace pat rep r)
       end.

(** [s.includes(sub)] *)
Fixpoint includes (s sub : string) : bool :=
  prefix sub s ||
  match s with
  | EmptyString => false
  | String _ r => includes r sub
  end.

(** [String.prototype.toLowerCase] on code units below 256: A-Z, and the
    Latin-1 capitals U+00C0..U+00DE except the multiplication sign U+00D7. *)
Definition lower_char (c : ascii) : ascii :=
  let n := nat_of_ascii c in
  if ((65 <=? n) && (n <=? 90) ||
      (192 <=? n) && (n <=? 222) && negb (n =? 215))%nat
  then ascii_of_nat (n + 32) else c.

Fixpoint toLowerCase (s : string) : string :=
  match s with
  | EmptyString => EmptyString
  | String c r => String (lower_char c) (toLowerCase r)
  end.

(** [s.split(sep)] for a one-character separator: never empty, the last
    element is what follows the last separator. *)
Fixpoint split (sep : ascii) (s : string) : list string :=
  match s with
  | EmptyString => [EmptyString]
  | String c r =>
      if Ascii.eqb c sep then EmptyString :: split sep r
      else match split sep r with
           | h :: t => String c h :: t
           | [] => [String c EmptyString]
           end
  end.

(** [a.join('')] *)
Definition join (l : list string) : string := fold_right append "" l.

End Js.

(* ------------------------------------------------------------------ *)
(** ** Frame reassembly (server.js, lines 94-100) *)

Module Reassembler.

(** One ['data'] callback, lines 98-100:
[[
    buffer += chunk.toString();
    const lines = buffer.split('\n');
    buffer = lines.pop() || '';
]]
    The argument [chunk] is the string [chunk.toString()] returned for this
    chunk (the decoding itself is in module [Chunks]).
    The result is the array [lines] after the [pop], and the new [buffer].
    [split] never returns an empty array, so [pop] yields its last element;
    [|| ''] maps the empty string to itself. *)
Definition on_chunk (buffer chunk : string) : list string * string :=
  let lines := Js.split "010" (buffer ++ chunk) in
  (removelast lines, last lines "").

(** The callback over a whole stream of chunks: every line handed to
    [lines.forEach], in order, and the buffer left when the stream ends. *)
Fixpoint feed (buffer : string) (chunks : list string) : list string * string :=
  match chunks with
  | [] => ([], buffer)
  | chunk :: rest =>
      let (lines, buffer') := on_chunk buffer chunk in
      let (more, final) := feed buffer' rest in
      ((lines ++ more)%list, final)
  end.

(** A frame holds no line feed. *)
Fixpoint newline_free (s : string) : bool :=
  match s with
  | EmptyString => true
  | String c r => negb (Ascii.eqb c "010") && newline_free r
  end.

(** The text of a sequence of complete frames, each closed by ['\n']. *)
Definition wire (frames : list string) : string :=
  Js.join (map (fun f => f ++ Js.LF) frames).

End Reassembler.

(* ------------------------------------------------------------------ *)
(** ** JavaScript values as [JSON.parse] builds them *)

Module Value.

(** A number is carried as its [Number::toString] rendering: the handler
    observes a number only through its truthiness (zero or not; JSON has no
    NaN), its rendering inside a string concatenation, and its
    serialization.  Zero, of either sign, renders as ["0"].
    An object is the list of its own properties in enumeration order. *)
#[warnings="-register-all"]
Inductive json : Type :=
| JNull
| JBool (b : bool)
| JNum (repr : string)
| JStr (s : string)
| JArr (items : list json)
| JObj (members : list (string * json)).

(** ToBoolean *)
Definition truthy (v : json) : bool :=
  match v with
  | JNull => false
  | JBool b => b
  | JNum r => negb (r =? "0")
  | JStr s => negb (s =? "")
  | JArr _ | JObj _ => true
  end.

Definition truthy_opt (o : option json) : bool :=
  match o with
  | Some v => truthy v
  | None => false
  end.

(** [a || b] with [b] a literal *)
Definition or_else (a : option json) (b : json) : json :=
  match a with
  | Some v => if truthy v then v else b
  | None => b
  end.

(** Own properties of an object. *)
Fixpoint lookup (k : string) (ms : list (string * json)) : option json :=
  match ms with
  | [] => None
  | (k', v) :: r => if k' =? k then Some v else lookup k r
  end.

Fixpoint modify (k : string) (f : json -> json) (ms : list (string * json))
  : list (string * json) :=
  match ms with
  | [] => []
  | (k', v) :: r => if k' =? k then (k', f v) :: r else (k', v) :: modify k f r
  end.

(** [o[k] = x]: an existing property keeps its place, a new one goes last. *)
Fixpoint assign (k : string) (x : json) (ms : list (string * json))
  : list (string * json) :=
  match ms with
  | [] => [(k, x)]
  | (k', v) :: r => if k' =? k then (k', x) :: r else (k', v) :: assign k x r
  end.

(** [delete o[k]] *)
Fixpoint remove (k : string) (ms : list (string * json)) : list (string * json) :=
  match ms with
  | [] => []
  | (k', v) :: r => if k' =? k then remove k r else (k', v) :: remove k r
  end.

(** [v.k] for the property names the handler reads ([model], [messages],
    [temperature], [max_tokens], [stream], [choices], [delta],
    [reasoning_content], [content]): none of them is an array index, [length]
    or a member of a built-in prototype, so only an object can hold one.
    [v] is neither [null] nor [undefined]. *)
Definition get_prop (v : json) (k : string) : option json :=
  match v with
  | JObj ms => lookup k ms
  | _ => None
  end.

(** [v[0]]: the first element of an array, the property ["0"] of an object,
    the first code unit of a string. *)
Definition get_first (v : json) : option json :=
  match v with
  | JArr items => hd_error items
  | JObj ms => lookup "0" ms
  | JStr (String c _) => Some (JStr (String c ""))
  | _ => None
  end.

(** [o?.step]: [undefined] when [o] is [null] or [undefined]. *)
Definition chain (o : option json) (step : json -> option json) : option json :=
  match o with
  | None | Some JNull => None
  | Some v => step v
  end.

(** [v.k = x] in sloppy mode (server.js has no ["use strict"]): ignored on a
    primitive; on an array it adds a named property, which [JSON.stringify]
    does not serialize and nothing reads afterwards. *)
Definition set_prop (k : string) (x : json) (v : json) : json :=
  match v with
  | JObj ms => JObj (assign k x ms)
  | _ => v
  end.

(** [delete v.k] *)
Definition delete_prop (k : string) (v : json) : json :=
  match v with
  | JObj ms => JObj (remove k ms)
  | _ => v
  end.

(** The value [v] with [f] applied to what [v.k] holds. *)
Definition at_prop (k : string) (f : json -> json) (v : json) : json :=
  match v with
  | JObj ms => JObj (modify k f ms)
  | _ => v
  end.

(** The value [v] with [f] applied to what [v[0]] holds. *)
Definition at_first (f : json -> json) (v : json) : json :=
  match v with
  | JArr (x :: r) => JArr (f x :: r)
  | JObj ms => JObj (modify "0" f ms)
  | _ => v
  end.

Fixpoint has_key (k : string) (ms : list (string * json)) : bool :=
  match ms with
  | [] => false
  | (k', _) :: r => (k' =? k) || has_key k r
  end.

(** ToString(ToPrimitive(v)), [None] when it throws a TypeError.  An array
    joins its elements with [","], [null] elements as the empty string.  An
    object answers ["[object Object]"] through [Object.prototype.toString],
    unless an own property [toString] (never callable in parsed JSON) hides
    it: then no method yields a primitive and the conversion throws. *)
Fixpoint to_str (v : json) : option string :=
  match v with
  | JNull => Some "null"
  | JBool true => Some "true"
  | JBool false => Some "false"
  | JNum r => Some r
  | JStr s => Some s
  | JArr items =>
      let element (x : json) : option string :=
        match x with
        | JNull => Some ""
        | _ => to_str x
        end in
      (fix join_items (l : list json) : option string :=
         match l with
         | [] => Some ""
         | x :: r =>
             let rest := join_items r in
             match element x with
             | None => None
             | Some s =>
                 match r with
                 | [] => Some s
                 | _ :: _ => option_map (fun t => s ++ "," ++ t) rest
                 end
             end
         end) items
  | JObj ms => if has_key "toString" ms then None else Some "[object Object]"
  end.

(** [a + b] when one operand at least is a string: the concatenation of
    both conversions.  (The handler never adds two non-strings: its left
    operand is a string literal or, in the [+=] of line 133, still [''].) *)
Definition plus (a b : json) : option json :=
  match to_str a, to_str b with
  | Some s, Some t => Some (JStr (s ++ t))
  | _, _ => None
  end.

End Value.

(* ------------------------------------------------------------------ *)
(** ** The chat-completions handler up to the backend call
       (server.js, lines 24-32 and 60-87) *)

Module Request.
Import Value.

(** line 21 *)
Definition ENABLE_THINKING_MODE : bool := false.

(** lines 24-32 *)
Definition MODEL_MAPPING : list (string * string) :=
  [ ("gpt-3.5-turbo", "nvidia/llama-3.1-nemotron-ultra-253b-v1");
    ("gpt-4", "qwen/qwen3-coder-480b-a35b-instruct");
    ("gpt-4-turbo", "moonshotai/kimi-k2-instruct-0905");
    ("gpt-4o", "deepseek-ai/deepseek-v3.1");
    ("claude-3-opus", "openai/gpt-oss-120b");
    ("claude-3-sonnet", "openai/gpt-oss-20b");
    ("gemini-pro", "qwen/qwen3-next-80b-a3b-thinking") ].

(** [MODEL_MAPPING] is an object literal: besides its own seven properties it
    inherits the members of [Object.prototype], all of them functions or
    objects, hence truthy. *)
Definition Object_prototype : list string :=
  [ "constructor"; "__defineGetter__"; "__defineSetter__"; "hasOwnProperty";
    "__lookupGetter__"; "__lookupSetter__"; "isPrototypeOf";
    "propertyIsEnumerable"; "toString"; "valueOf"; "__proto__";
    "toLocaleString" ].

(** What [nimModel] can hold: a backend model name, or an inherited member
    of [Object.prototype] (never a JSON value). *)
Inductive nim_model : Type :=
| Backend (name : string)
| Inherited (member : string).

Fixpoint own (key : string) (table : list (string * string)) : option string :=
  match table with
  | [] => None
  | (k, v) :: r => if k =? key then Some v else own key r
  end.

(** [MODEL_MAPPING[key]]; [None] is [undefined]. *)
Definition MODEL_MAPPING_get (key : string) : option nim_model :=
  match own key MODEL_MAPPING with
  | Some name => Some (Backend name)
  | None =>
      if existsb (String.eqb key) Object_prototype
      then Some (Inherited key) else None
  end.

Inductive error : Type := TypeError.

Inductive completion (A : Type) : Type :=
| Normal (a : A)
| Throw (e : error).
Arguments Normal {A} a.
Arguments Throw {A} e.

(** The property key [model] converts to in [MODEL_MAPPING[model]]. *)
Definition property_key (model : option json) : option string :=
  match model with
  | None => Some "undefined"
  | Some v => to_str v
  end.

(** lines 64-73:
[[
    let nimModel = MODEL_MAPPING[model];
    if (!nimModel) {
        const modelLower = model.toLowerCase();
        if (modelLower.includes('gpt-4') || modelLower.includes('405b')) {
            nimModel = 'meta/llama-3.1-405b-instruct';
        } else {
            nimModel = 'meta/llama-3.1-8b-instruct';
        }
    }
]]
    Only a string has a [toLowerCase] method: on [undefined] and [null] the
    property read throws, on any other value the call does. *)
Definition resolve (model : option json) : completion nim_model :=
  match property_key model with
  | None => Throw TypeError
  | Some key =>
      match MODEL_MAPPING_get key with
      | Some nimModel => Normal nimModel
      | None =>
          match model with
          | Some (JStr s) =>
              let modelLower := Js.toLowerCase s in
              if Js.includes modelLower "gpt-4" || Js.includes modelLower "405b"
              then Normal (Backend "meta/llama-3.1-405b-instruct")
              else Normal (Backend "meta/llama-3.1-8b-instruct")
          | _ => Throw TypeError
          end
      end
  end.

(** lines 75-82 *)
Record nimRequest : Type := {
  model : nim_model;
  messages : option json;
  temperature : json;
  max_tokens : json;
  extra_body : option json;
  stream : json
}.

(** What the handler does with a request before it awaits the backend:
    it posts [nimRequest] asking for the given [responseType], or an
    exception reaches the [catch] of lines 160-163, which answers
    [res.status(500).json({ error: { message: error.message } })]. *)
Inductive action : Type :=
| Post (request : nimRequest) (responseType : string)
| Respond500 (e : error).

(** lines 62-87.  [body] is [req.body]; destructuring [undefined] or [null]
    throws. *)
Definition chat_completions (body : option json) : action :=
  match body with
  | None | Some JNull => Respond500 TypeError
  | Some b =>
      let model_ := get_prop b "model" in
      let messages_ := get_prop b "messages" in
      let temperature_ := get_prop b "temperature" in
      let max_tokens_ := get_prop b "max_tokens" in
      let stream_ := get_prop b "stream" in
      match resolve model_ with
      | Throw e => Respond500 e
      | Normal nimModel =>
          Post {| model := nimModel;
                  messages := messages_;
                  temperature := or_else temperature_ (JNum "0.6");
                  max_tokens := or_else max_tokens_ (JNum "9024");
                  extra_body :=
                    if ENABLE_THINKING_MODE
                    then Some (JObj [("chat_template_kwargs",
                                      JObj [("thinking", JBool true)])])
                    else None;
                  stream := or_else stream_ (JBool true) |}
               (if truthy_opt stream_ then "stream" else "json")
      end
  end.

End Request.

(* ------------------------------------------------------------------ *)
(** ** The streaming transformer (server.js, lines 89-154) *)

Module Stream.
Import Value.

(** What the handler does to the client response. *)
Inductive client_op : Type :=
| Write (text : string)      (* res.write(text) *)
| EndResponse.               (* res.end() *)

(** The variables of lines 94-95. *)
Record state : Type := {
  buffer : string;
  reasoningStarted : bool
}.

(** lines 94-95 *)
Definition initial : state := {| buffer := ""; reasoningStarted := false |}.

Definition open_marker : string := "<think>" ++ Js.LF.
Definition close_marker : string := "</think>" ++ Js.LF ++ Js.LF.

(** [`data: ${payload}\n\n`] *)
Definition frame (payload : string) : string :=
  "data: " ++ payload ++ Js.LF ++ Js.LF.

(** [x] when it is truthy. *)
Definition present (x : option json) : option json :=
  match x with
  | Some v => if truthy v then Some v else None
  | None => None
  end.

(** lines 121-134: the value of [combinedContent] ([None] when a
    concatenation threw) and the value of [reasoningStarted] afterwards.
[[
    let combinedContent = '';
    if (reasoning && !reasoningStarted) {
        combinedContent = '<think>\n' + reasoning;
        reasoningStarted = true;
    } else if (reasoning) {
        combinedContent = reasoning;
    }
    if (content && reasoningStarted) {
        combinedContent += '</think>\n\n' + content;
        reasoningStarted = false;
    } else if (content) {
        combinedContent += content;
    }
]] *)
Definition combine (reasoning content : option json) (reasoningStarted : bool)
  : option json * bool :=
  let first : option (json * bool) :=
    match present reasoning with
    | Some r =>
        if negb reasoningStarted
        then option_map (fun c => (c, true)) (plus (JStr open_marker) r)
        else Some (r, reasoningStarted)
    | None => Some (JStr "", reasoningStarted)
    end in
  match first with
  | None => (None, reasoningStarted)
  | Some (combinedContent, started) =>
      match present content with
      | Some c =>
          if started
          then match plus (JStr close_marker) c with
               | Some closing =>
                   match plus combinedContent closing with
                   | Some combined => (Some combined, false)
                   | None => (None, started)
                   end
               | None => (None, started)
               end
          else match plus combinedContent c with
               | Some combined => (Some combined, started)
               | None => (None, started)
               end
      | None => (Some combinedContent, started)
      end
  end.

(** [data?.choices?.[0]?.delta] *)
Definition first_delta (data : json) : option json :=
  chain (chain (chain (Some data) (fun v => get_prop v "choices")) get_first)
        (fun v => get_prop v "delta").

(** [data.choices[0].delta.content = text;
     delete data.choices[0].delta.reasoning_content;] *)
Definition rewrite_delta (text : json) (data : json) : json :=
  at_prop "choices"
    (at_first
       (at_prop "delta"
          (fun delta => delete_prop "reasoning_content" (set_prop "content" text delta))))
    data.

Section Transformer.

(** [JSON.parse]; [None] when it throws a SyntaxError. *)
Variable JSON_parse : string -> option json.
(** [JSON.stringify] *)
Variable JSON_stringify : json -> string.
(** The constant of line 18 ([false] in the source); a parameter here, since
    both branches of line 120 are modelled. *)
Variable SHOW_REASONING : bool.

(** lines 115-146, inside the [try]: the frames written and the value of
    [reasoningStarted] afterwards.  A TypeError thrown by a concatenation is
    caught at line 147 and nothing is written. *)
Definition on_event (data : json) (reasoningStarted : bool) : list string * bool :=
  match present (first_delta data) with
  | Some delta =>
      let reasoning := get_prop delta "reasoning_content" in
      let content := get_prop delta "content" in
      if SHOW_REASONING then
        match combine reasoning content reasoningStarted with
        | (Some combinedContent, started) =>
            let data' :=
              if truthy combinedContent
              then rewrite_delta combinedContent data
              else data in
            ([frame (JSON_stringify data')], started)
        | (None, started) => ([], started)
        end
      else
        let data' := rewrite_delta (or_else content (JStr "")) data in
        ([frame (JSON_stringify data')], reasoningStarted)
  | None => ([], reasoningStarted)
  end.

(** lines 102-150: the callback of [lines.forEach]. *)
Definition on_line (line : string) (reasoningStarted : bool) : list string * bool :=
  let trimmed := Js.trim line in
  if (trimmed =? "") || negb (Js.startsWith trimmed "data: ")
  then ([], reasoningStarted)
  else
    let jsonStr := Js.trim (Js.replace "data: " "" trimmed) in
    if jsonStr =? "[DONE]"
    then (["data: [DONE]" ++ Js.LF ++ Js.LF], reasoningStarted)
    else
      match JSON_parse jsonStr with
      | None => ([], reasoningStarted)
      | Some data => on_event data reasoningStarted
      end.

(** [lines.forEach(...)] *)
Fixpoint on_lines (lines : list string) (reasoningStarted : bool)
  : list string * bool :=
  match lines with
  | [] => ([], reasoningStarted)
  | line :: rest =>
      let (written, started) := on_line line reasoningStarted in
      let (more, final) := on_lines rest started in
      ((written ++ more)%list, final)
  end.

(** lines 97-151: the ['data'] listener. *)
Definition on_data (st : state) (chunk : string) : list string * state :=
  let (lines, buffer') := Reassembler.on_chunk (buffer st) chunk in
  let (written, started) := on_lines lines (reasoningStarted st) in
  (written, {| buffer := buffer'; reasoningStarted := started |}).

(** The listener over the chunks of a backend stream. *)
Fixpoint run (st : state) (chunks : list string) : list string * state :=
  match chunks with
  | [] => ([], st)
  | chunk :: rest =>
      let (written, st') := on_data st chunk in
      let (more, final) := run st' rest in
      ((written ++ more)%list, final)
  end.

(** lines 94-154 for a backend stream that delivers [chunks] and then ends
    (or fails): every write, then [res.end()].  What [buffer] still holds
    is not looked at. *)
Definition respond (chunks : list string) : list client_op :=
  (map Write (fst (run initial chunks)) ++ [EndResponse])%list.

End Transformer.

End Stream.

(* ------------------------------------------------------------------ *)
(** ** The specification's vocabulary *)

Module Spec.
Import Value.

(** A field of a delta as the backend protocol delivers it: missing, [null]
    or a string. *)
Inductive text_field : Type :=
| Missing
| Null
| Text (s : string).

Definition field_value (f : text_field) : option json :=
  match f with
  | Missing => None
  | Null => Some JNull
  | Text s => Some (JStr s)
  end.

(** The text a field carries; a field is present when it carries some
    (section 4.2 (f): each optional, default empty/absent). *)
Definition carried (f : text_field) : option string :=
  match f with
  | Text (String c r) => Some (String c r)
  | _ => None
  end.

(** DeltaEvent (section 3) *)
Record DeltaEvent : Type := {
  reasoningText : text_field;
  answerText : text_field
}.

(** MergerState (sections 3 and 4.3) *)
Inductive MergerState : Type := Closed | Open.

Definition reasoningBlockOpen (s : MergerState) : bool :=
  match s with
  | Open => true
  | Closed => false
  end.

Definition block (reasoningStarted : bool) : MergerState :=
  if reasoningStarted then Open else Closed.

(** Section 4.3, policy show, the reasoning transition. *)
Definition reasoning_transition (reasoning : option string) (s : MergerState)
  : string * MergerState :=
  match reasoning, s with
  | Some r, Closed => (Stream.open_marker ++ r, Open)
  | Some r, Open => (r, Open)
  | None, _ => ("", s)
  end.

(** Section 4.3, policy show, the answer transition. *)
Definition answer_transition (answer : option string) (s : MergerState)
  : string * MergerState :=
  match answer, s with
  | Some a, Open => (Stream.close_marker ++ a, Closed)
  | Some a, Closed => (a, Closed)
  | None, _ => ("", s)
  end.

(** Section 4.3, policy show: the reasoning transition first, then the
    answer transition, outputs concatenated. *)
Definition show_transition (reasoning answer : option string) (s : MergerState)
  : string * MergerState :=
  let (out1, s1) := reasoning_transition reasoning s in
  let (out2, s2) := answer_transition answer s1 in
  (out1 ++ out2, s2).

(** Section 4.3, policy hide. *)
Definition text_or_empty (answer : option string) : string :=
  match answer with
  | Some a => a
  | None => ""
  end.

(** Section 4.2 (a)-(c): the classification of a frame. *)
Definition is_data_frame (line : string) : bool :=
  Js.startsWith (Js.trim line) "data: ".

Definition payload (line : string) : string :=
  Js.trim (Js.replace "data: " "" (Js.trim line)).

Definition terminal_frame : string := "data: [DONE]" ++ Js.LF ++ Js.LF.

(** P5 as stated: once the terminal frame is written, the response only
    ends. *)
Definition ends_at_terminal (ops : list Stream.client_op) : Prop :=
  forall before after,
    ops = (before ++ Stream.Write terminal_frame :: after)%list ->
    after = [Stream.EndResponse].

(** Section 4.2 (a), (b), (d), (e): the frames that yield no event. *)
Definition yields_nothing (JSON_parse : string -> option json) (line : string) : Prop :=
  Js.trim line = "" \/
  is_data_frame line = false \/
  (payload line <> "[DONE]" /\
   (JSON_parse (payload line) = None \/
    exists data, JSON_parse (payload line) = Some data /\
                 Stream.present (Stream.first_delta data) = None)).

(** A request field the client left unset: absent, [null] or exactly 0. *)
Definition unset (x : option json) : bool :=
  match x with
  | None | Some JNull => true
  | Some (JNum r) => r =? "0"
  | Some _ => false
  end.

(** The model resolver as section 6 words it: exact lookup in the table,
    else the substring heuristic on the lowercased identifier. *)
Definition resolver (identifier : string) : string :=
  match Request.own identifier Request.MODEL_MAPPING with
  | Some name => name
  | None =>
      let lowered := Js.toLowerCase identifier in
      if Js.includes lowered "gpt-4" || Js.includes lowered "405b"
      then "meta/llama-3.1-405b-instruct"
      else "meta/llama-3.1-8b-instruct"
  end.

(** What a stretch of emitted text is made of. *)
Inductive piece : Type :=
| OpenMarker
| CloseMarker
| Txt (s : string).

Definition render_piece (p : piece) : string :=
  match p with
  | OpenMarker => Stream.open_marker
  | CloseMarker => Stream.close_marker
  | Txt s => s
  end.

Definition render (ps : list piece) : string := Js.join (map render_piece ps).

Definition is_marker (p : piece) : bool :=
  match p with
  | Txt _ => false
  | _ => true
  end.

Definition markers (ps : list piece) : list piece := filter is_marker ps.

Fixpoint texts (ps : list piece) : list string :=
  match ps with
  | [] => []
  | Txt s :: r => s :: texts r
  | _ :: r => texts r
  end.

(** [n] reasoning blocks, one after the other: open, close, open, close... *)
Fixpoint paired (n : nat) : list piece :=
  match n with
  | O => []
  | S k => OpenMarker :: CloseMarker :: paired k
  end.

Definition has_reasoning (e : DeltaEvent) : bool :=
  match carried (reasoningText e) with Some _ => true | None => false end.

Definition has_answer (e : DeltaEvent) : bool :=
  match carried (answerText e) with Some _ => true | None => false end.

Definition carries_text (e : DeltaEvent) : bool :=
  has_reasoning e || has_answer e.

(** After the deltas [before], reasoning is under way when the last delta
    that carried any text carried reasoning and no answer. *)
Definition reasoning_under_way (before : list DeltaEvent) : bool :=
  match find carries_text (rev before) with
  | Some e => negb (has_answer e)
  | None => false
  end.

(** The delta at position [i] of [events] starts reasoning: it carries
    reasoning and no reasoning is under way when it arrives. *)
Definition reasoning_start (events : list DeltaEvent) (i : nat) : bool :=
  match nth_error events i with
  | Some e => has_reasoning e && negb (reasoning_under_way (firstn i events))
  | None => false
  end.

Definition reasoning_starts (events : list DeltaEvent) : nat :=
  List.length (filter (reasoning_start events) (seq 0 (List.length events))).

(** The texts the deltas carry, in order (reasoning before answer within
    one delta). *)
Fixpoint carried_texts (events : list DeltaEvent) : list string :=
  match events with
  | [] => []
  | e :: r =>
      (match carried (reasoningText e) with Some t => [t] | None => [] end ++
       match carried (answerText e) with Some t => [t] | None => [] end ++
       carried_texts r)%list
  end.

(** The merge of lines 121-134 folded over the deltas of a stream: the
    text merged for each, and the final [reasoningStarted].  (What the
    listener writes for the lines that carry these deltas is related to it
    by lemma [listener_merges].) *)
Fixpoint merge_all (events : list DeltaEvent) (reasoningStarted : bool)
  : list (option json) * bool :=
  match events with
  | [] => ([], reasoningStarted)
  | e :: r =>
      let (combined, started) :=
        Stream.combine (field_value (reasoningText e))
                       (field_value (answerText e)) reasoningStarted in
      let (more, final) := merge_all r started in
      (combined :: more, final)
  end.

(** The pieces section 4.3 emits for one delta under the show policy, and
    for a stream of deltas. *)
Definition delta_pieces (e : DeltaEvent) (s : MergerState)
  : list piece * MergerState :=
  let (p1, s1) :=
    match carried (reasoningText e), s with
    | Some t, Closed => ([OpenMarker; Txt t], Open)
    | Some t, Open => ([Txt t], Open)
    | None, _ => ([], s)
    end in
  let (p2, s2) :=
    match carried (answerText e), s1 with
    | Some t, Open => ([CloseMarker; Txt t], Closed)
    | Some t, Closed => ([Txt t], Closed)
    | None, _ => ([], s1)
    end in
  ((p1 ++ p2)%list, s2).

Fixpoint stream_pieces (events : list DeltaEvent) (s : MergerState)
  : list piece * MergerState :=
  match events with
  | [] => ([], s)
  | e :: r =>
      let (p, s1) := delta_pieces e s in
      let (q, s2) := stream_pieces r s1 in
      ((p ++ q)%list, s2)
  end.

(** The text of a [combinedContent] that is a string. *)
Definition text_of (combined : option json) : string :=
  match combined with
  | Some (JStr s) => s
  | _ => ""
  end.

(** The line is a data frame (not the terminal one) whose payload parses to
    [data], an event whose delta is an object with the two fields of [e]. *)
Definition carries (JSON_parse : string -> option json)
  (line : string) (data : json) (e : DeltaEvent) : Prop :=
  is_data_frame line = true /\
  payload line <> "[DONE]" /\
  JSON_parse (payload line) = Some data /\
  exists members,
    Stream.first_delta data = Some (JObj members) /\
    lookup "reasoning_content" members = field_value (reasoningText e) /\
    lookup "content" members = field_value (answerText e).

(** The text a written event carries in its delta's [content]. *)
Definition emitted_text (written : json) : string :=
  match chain (Stream.first_delta written) (fun delta => get_prop delta "content") with
  | Some (JStr s) => s
  | _ => ""
  end.

(** How many times [pattern] occurs in [text] (at how many positions). *)
Fixpoint occurrences (pattern text : string) : nat :=
  (if prefix pattern text then 1 else 0) +
  match text with
  | EmptyString => 0
  | String _ rest => occurrences pattern rest
  end.

(** A stream of delta-carrying lines: each line with the event it parses
    to and the two fields of its delta. *)
Definition carried_stream : Type := list (string * json * DeltaEvent).

Definition lines_of (stream : carried_stream) : list string :=
  map (fun t => fst (fst t)) stream.

Definition events_of (stream : carried_stream) : list DeltaEvent :=
  map snd stream.

Definition all_carried (JSON_parse : string -> option json)
  (stream : carried_stream) : Prop :=
  Forall (fun t => carries JSON_parse (fst (fst t)) (snd (fst t)) (snd t)) stream.

(** What is written for an event: the event as it came, or the event with
    the delta's [content] replaced and its [reasoning_content] deleted. *)
Definition written_for (t : string * json * DeltaEvent) (written : json) : Prop :=
  written = snd (fst t) \/
  written = Stream.rewrite_delta (JStr (emitted_text written)) (snd (fst t)).

Definition is_open (p : piece) : bool :=
  match p with OpenMarker => true | _ => false end.

Definition is_close (p : piece) : bool :=
  match p with CloseMarker => true | _ => false end.

(** A text without ["<"], the character both markers start with. *)
Fixpoint plain (text : string) : bool :=
  match text with
  | EmptyString => true
  | String c rest => negb (Ascii.eqb c "<") && plain rest
  end.

End Spec.

(* ------------------------------------------------------------------ *)
(** ** A small runtime to run the handler on concrete inputs *)

Module Sample.
Import Value.

Definition quote : string := String "034"%char "".
Definition backslash : string := String "092"%char "".

Definition hex_digit (n : nat) : ascii :=
  ascii_of_nat (if n <? 10 then 48 + n else 87 + n)%nat.

(** QuoteJSONString on one code unit below 256: the quote, the backslash
    and the control characters are escaped (short forms for BS, TAB, LF, FF
    and CR, four lowercase hex digits otherwise); the rest stands as it is. *)
Definition escape_char (c : ascii) : string :=
  let n := nat_of_ascii c in
  if (n =? 34)%nat then backslash ++ quote
  else if (n =? 92)%nat then backslash ++ backslash
  else if (n =? 8)%nat then backslash ++ "b"
  else if (n =? 9)%nat then backslash ++ "t"
  else if (n =? 10)%nat then backslash ++ "n"
  else if (n =? 12)%nat then backslash ++ "f"
  else if (n =? 13)%nat then backslash ++ "r"
  else if (n <? 32)%nat
       then backslash ++ "u00" ++
            String (hex_digit (n / 16)) (String (hex_digit (n mod 16)) "")
  else String c "".

Fixpoint escape (s : string) : string :=
  match s with
  | EmptyString => EmptyString
  | String c r => escape_char c ++ escape r
  end.

Definition quoted (s : string) : string := quote ++ escape s ++ quote.

(** [JSON.stringify] on the values [JSON.parse] builds, without indentation:
    strings and keys quoted and escaped, a number by its rendering, except
    that a number that is not finite is written [null]. *)
Fixpoint stringify (v : json) : string :=
  match v with
  | JNull => "null"
  | JBool true => "true"
  | JBool false => "false"
  | JNum r =>
      if (r =? "Infinity") || (r =? "-Infinity") || (r =? "NaN") then "null" else r
  | JStr s => quoted s
  | JArr items =>
      "[" ++
      (fix elements (l : list json) : string :=
         match l with
         | [] => ""
         | x :: r =>
             let rest := elements r in
             match r with
             | [] => stringify x
             | _ :: _ => stringify x ++ "," ++ rest
             end
         end) items ++ "]"
  | JObj ms =>
      "{" ++
      (fix members (l : list (string * json)) : string :=
         match l with
         | [] => ""
         | (k, x) :: r =>
             let rest := members r in
             match r with
             | [] => quoted k ++ ":" ++ stringify x
             | _ :: _ => quoted k ++ ":" ++ stringify x ++ "," ++ rest
             end
         end) ms ++ "}"
  end.

Definition event (delta : json) : json :=
  JObj [("id", JStr "cmpl-1"); ("choices", JArr [JObj [("index", JNum "0"); ("delta", delta)]])].

(** A delta with reasoning only, one with an answer only, the opening delta
    of a stream (role, empty content, [null] reasoning), and an event
    without choices. *)
Definition thinking : json :=
  event (JObj [("reasoning_content", JStr "hmm"); ("content", JNull)]).
Definition answering : json :=
  event (JObj [("content", JStr "hi")]).
Definition opening : json :=
  event (JObj [("role", JStr "assistant"); ("content", JStr "");
               ("reasoning_content", JNull)]).
Definition usage_only : json :=
  JObj [("id", JStr "cmpl-1"); ("choices", JArr [])].
(** The event of the last example of section 8. *)
Definition hi : json :=
  JObj [("choices", JArr [JObj [("delta", JObj [("content", JStr "hi")])]])].

(** A delta whose reasoning text is the text of the open marker itself. *)
Definition echoing : json :=
  event (JObj [("reasoning_content", JStr Stream.open_marker); ("content", JNull)]).

Definition documents : list json :=
  [thinking; answering; opening; usage_only; hi; echoing].

(** [JSON.parse] on the texts of [documents]; a SyntaxError on anything
    else. *)
Definition parse (text : string) : option json :=
  find (fun d => stringify d =? text) documents.

(** [chunk.toString()] on a buffer of ASCII bytes, where UTF-8 decoding
    reads each byte as the character of that code. *)
Definition toString (chunk : list Byte.byte) : string :=
  string_of_list_byte chunk.

(** The bytes of an ASCII text. *)
Definition bytes (text : string) : list Byte.byte := list_byte_of_string text.

End Sample.

(* ------------------------------------------------------------------ *)
(** ** GET /v1/models (server.js, lines 44-57) *)

Module Models.
Import Value.

(** lines 46-51: the object built for one key of [MODEL_MAPPING];
    [created] is what [Date.now()] returned for it. *)
Definition entry (created : string) (id : string) : json :=
  JObj [("id", JStr id); ("object", JStr "model"); ("created", JNum created);
        ("owned_by", JStr "nvidia-nim-proxy")].

(** [Object.keys(MODEL_MAPPING).map(...)]: the own keys in insertion order
    (none looks like an array index); [Date.now()] is called once per key,
    [clock n] being the rendering of what its call number [n] returns. *)
Fixpoint entries (clock : nat -> string) (calls : nat) (ids : list string)
  : list json :=
  match ids with
  | [] => []
  | id :: rest => entry (clock calls) id :: entries clock (S calls) rest
  end.

(** lines 45-57: the value handed to [res.json]. *)
Definition list_models (clock : nat -> string) : json :=
  JObj [("object", JStr "list");
        ("data", JArr (entries clock 0 (map fst Request.MODEL_MAPPING)))].

End Models.

(* ------------------------------------------------------------------ *)
(** ** Vocabulary for lines and frames *)

Module Lines.

(** Nothing but white space. *)
Fixpoint blank (s : string) : bool :=
  match s with
  | EmptyString => true
  | String c r => Js.is_white c && blank r
  end.

(** An outbound frame: ["data: "], a payload, two line feeds. *)
Definition is_frame (written : string) : Prop :=
  exists payload, written = "data: " ++ payload ++ Js.LF ++ Js.LF.

End Lines.

(* ------------------------------------------------------------------ *)
(** ** The constant of line 18 *)

Module Policy.

(** line 18: [const SHOW_REASONING = false;] *)
Definition SHOW_REASONING : bool := false.

End Policy.

(* ------------------------------------------------------------------ *)
(** ** Chunks as buffers (server.js, lines 97-98 and 153-154) *)

Module Chunks.
Import Value.

(** A chunk of the backend stream. *)
Definition Buffer : Type := list Byte.byte.

Section Decoding.

(** [Buffer.prototype.toString()]: the UTF-8 decoding of one buffer, on its
    own.  It belongs to the runtime and is a parameter here; bytes that do
    not form a complete character within the buffer are not carried over to
    the next call. *)
Variable toString : Buffer -> string.
Variable JSON_parse : string -> option json.
Variable JSON_stringify : json -> string.
Variable SHOW_REASONING : bool.

(** lines 97-151: the ['data'] listener on a chunk,
    [buffer += chunk.toString()] first. *)
Definition on_data (st : Stream.state) (chunk : Buffer) : list string * Stream.state :=
  Stream.on_data JSON_parse JSON_stringify SHOW_REASONING st (toString chunk).

(** The listener over the chunks of a backend stream, from the state of
    lines 94-95. *)
Fixpoint run (st : Stream.state) (chunks : list Buffer) : list string * Stream.state :=
  match chunks with
  | [] => ([], st)
  | chunk :: rest =>
      let (written, st') := on_data st chunk in
      let (more, final) := run st' rest in
      ((written ++ more)%list, final)
  end.

(** lines 94-154 for a backend stream that delivers [chunks] and ends. *)
Definition respond (chunks : list Buffer) : list Stream.client_op :=
  (map Stream.Write (fst (run Stream.initial chunks)) ++ [Stream.EndResponse])%list.

End Decoding.

End Chunks.

(* ================================================================== *)
(** * Properties *)

(** ** Strings and lists *)

Lemma append_assoc (a b c : string) : (a ++ b) ++ c = a ++ (b ++ c).
Proof. induction a as [|x a IH]; simpl; [reflexivity | now rewrite IH]. Qed.

Lemma append_empty_r (a : string) : a ++ "" = a.
Proof. induction a as [|x a IH]; simpl; [reflexivity | now rewrite IH]. Qed.

Lemma split_not_nil sep s : Js.split sep s <> [].
Proof.
  destruct s as [|c r]; simpl; [discriminate|].
  destruct (Ascii.eqb c sep); [discriminate|].
  destruct (Js.split sep r); discriminate.
Qed.

(** Splitting a concatenation: the complete segments of the left part stay,
    and its last segment is glued in front of the right part. *)
Lemma split_app sep s t :
  Js.split sep (s ++ t) =
  (removelast (Js.split sep s) ++ Js.split sep (last (Js.split sep s) "" ++ t))%list.
Proof.
  induction s as [|c r IH]; [reflexivity|].
  cbn [append Js.split].
  destruct (Ascii.eqb c sep) eqn:Ec.
  - rewrite IH.
    pose proof (split_not_nil sep r) as Hne.
    destruct (Js.split sep r) as [|x l] eqn:E; [contradiction|].
    reflexivity.
  - rewrite IH.
    destruct (Js.split sep r) as [|x [|y l]] eqn:E.
    + exfalso; eapply split_not_nil; eassumption.
    + cbn [removelast last app append Js.split].
      rewrite Ec. reflexivity.
    + reflexivity.
Qed.

Lemma last_app_nonempty {A} (l l' : list A) (d : A) :
  l' <> [] -> last (l ++ l') d = last l' d.
Proof.
  intros Hne. induction l as [|x l IH]; [reflexivity|].
  cbn [app last]. destruct (l ++ l')%list eqn:E; [|exact IH].
  apply app_eq_nil in E as [_ E]. contradiction.
Qed.

Lemma split_newline_free (s : string) :
  Reassembler.newline_free s = true -> Js.split "010" s = [s].
Proof.
  induction s as [|c r IH]; simpl; [reflexivity|].
  intros H. apply andb_prop in H as [Hc Hr].
  apply negb_true_iff in Hc. rewrite Hc, (IH Hr). reflexivity.
Qed.

Lemma split_frame (f t : string) :
  Reassembler.newline_free f = true ->
  Js.split "010" (f ++ Js.LF ++ t) = f :: Js.split "010" t.
Proof.
  induction f as [|c r IH]; simpl; intros H; [reflexivity|].
  apply andb_prop in H as [Hc Hr].
  apply negb_true_iff in Hc. rewrite Hc.
  change (String "010" t) with (Js.LF ++ t). rewrite (IH Hr). reflexivity.
Qed.

Lemma split_wire (frames : list string) (rest : string) :
  forallb Reassembler.newline_free frames = true ->
  Reassembler.newline_free rest = true ->
  Js.split "010" (Reassembler.wire frames ++ rest) = (frames ++ [rest])%list.
Proof.
  intros Hf Hr. induction frames as [|f fs IH]; simpl in *.
  - apply split_newline_free, Hr.
  - apply andb_prop in Hf as [H1 H2].
    unfold Reassembler.wire in *. simpl.
    rewrite !append_assoc, split_frame by assumption.
    now rewrite IH.
Qed.

Lemma last_split_newline_free sep s :
  sep = "010"%char -> Reassembler.newline_free (last (Js.split sep s) "") = true.
Proof.
  intros ->. induction s as [|c r IH]; [reflexivity|].
  cbn [Js.split]. destruct (Ascii.eqb c "010") eqn:Ec.
  - pose proof (split_not_nil "010" r).
    destruct (Js.split "010" r) as [|x l]; [contradiction|]. exact IH.
  - destruct (Js.split "010" r) as [|x [|y l]] eqn:E.
    + cbn. now rewrite Ec.
    + cbn in *. now rewrite Ec, IH.
    + exact IH.
Qed.

(** Feeding chunk by chunk is splitting the whole text at once. *)
Lemma feed_whole (chunks : list string) (buffer : string) :
  Reassembler.newline_free buffer = true ->
  Reassembler.feed buffer chunks = Reassembler.on_chunk buffer (Js.join chunks).
Proof.
  revert buffer. induction chunks as [|c cs IH]; intros buffer Hb.
  - unfold Reassembler.on_chunk. cbn.
    now rewrite append_empty_r, split_newline_free.
  - cbn [Reassembler.feed Js.join fold_right].
    unfold Reassembler.on_chunk at 1.
    rewrite IH by (apply last_split_newline_free; reflexivity).
    unfold Reassembler.on_chunk.
    fold (Js.join cs).
    rewrite <- append_assoc, (split_app _ (buffer ++ c)).
    pose proof (split_not_nil "010"
                  (last (Js.split "010" (buffer ++ c)) "" ++ Js.join cs)) as Hne.
    rewrite removelast_app, last_app_nonempty by assumption.
    reflexivity.
Qed.

(** ** The listener in terms of the lines it is handed *)

Section Listener.

Variable JSON_parse : string -> option Value.json.
Variable JSON_stringify : Value.json -> string.
Variable SHOW_REASONING : bool.

Local Abbreviation on_line := (Stream.on_line JSON_parse JSON_stringify SHOW_REASONING).
Local Abbreviation on_lines := (Stream.on_lines JSON_parse JSON_stringify SHOW_REASONING).
Local Abbreviation run := (Stream.run JSON_parse JSON_stringify SHOW_REASONING).

Lemma on_lines_app (l1 l2 : list string) (started : bool) :
  on_lines (l1 ++ l2) started =
  let (w1, s1) := on_lines l1 started in
  let (w2, s2) := on_lines l2 s1 in
  ((w1 ++ w2)%list, s2).
Proof.
  revert started. induction l1 as [|x l1 IH]; intros started; cbn [app Stream.on_lines].
  - now destruct (on_lines l2 started).
  - destruct (on_line x started) as [w s].
    rewrite IH.
    destruct (on_lines l1 s) as [w1 s1], (on_lines l2 s1) as [w2 s2].
    now rewrite app_assoc.
Qed.

(** The listener handles exactly the lines the reassembler hands over, in
    order, with one [reasoningStarted] threaded through all of them. *)
Lemma run_feed (chunks : list string) (st : Stream.state) :
  run st chunks =
  let (lines, final) := Reassembler.feed (Stream.buffer st) chunks in
  let (written, started) := on_lines lines (Stream.reasoningStarted st) in
  (written, {| Stream.buffer := final; Stream.reasoningStarted := started |}).
Proof.
  revert st. induction chunks as [|c cs IH]; intros [b s]; cbn [Stream.run Reassembler.feed].
  - reflexivity.
  - unfold Stream.on_data. cbn [Stream.buffer Stream.reasoningStarted].
    destruct (Reassembler.on_chunk b c) as [lines b'].
    destruct (on_lines lines s) as [w s'] eqn:E1.
    rewrite IH. cbn [Stream.buffer Stream.reasoningStarted].
    destruct (Reassembler.feed b' cs) as [more final].
    rewrite on_lines_app, E1.
    now destruct (on_lines more s').
Qed.

End Listener.

(** ** Complete frames *)

Lemma feed_frames (frames : list string) (rest : string) (chunks : list string) :
  forallb Reassembler.newline_free frames = true ->
  Reassembler.newline_free rest = true ->
  Js.join chunks = Reassembler.wire frames ++ rest ->
  Reassembler.feed "" chunks = (frames, rest).
Proof.
  intros Hf Hr Hjoin.
  rewrite feed_whole by reflexivity.
  unfold Reassembler.on_chunk. cbn [append].
  rewrite Hjoin, split_wire by assumption.
  now rewrite removelast_last, last_last.
Qed.

Lemma run_frames
  (JSON_parse : string -> option Value.json)
  (JSON_stringify : Value.json -> string) (SHOW_REASONING : bool)
  (frames : list string) (rest : string) (chunks : list string) :
  forallb Reassembler.newline_free frames = true ->
  Reassembler.newline_free rest = true ->
  Js.join chunks = Reassembler.wire frames ++ rest ->
  Stream.run JSON_parse JSON_stringify SHOW_REASONING Stream.initial chunks =
    (fst (Stream.on_lines JSON_parse JSON_stringify SHOW_REASONING frames false),
     {| Stream.buffer := rest;
        Stream.reasoningStarted :=
          snd (Stream.on_lines JSON_parse JSON_stringify SHOW_REASONING frames false) |}).
Proof.
  intros Hf Hr Hjoin.
  rewrite run_feed. cbn [Stream.initial Stream.buffer Stream.reasoningStarted].
  rewrite (feed_frames frames rest chunks Hf Hr Hjoin).
  now destruct (Stream.on_lines JSON_parse JSON_stringify SHOW_REASONING frames false).
Qed.

(** ** The merge of lines 121-134 *)

Import Value.

Lemma combine_transition
  (reasoning answer : Spec.text_field) (reasoningStarted : bool) :
  Stream.combine (Spec.field_value reasoning) (Spec.field_value answer) reasoningStarted =
    (Some (JStr (fst (Spec.show_transition (Spec.carried reasoning) (Spec.carried answer)
                                           (Spec.block reasoningStarted)))),
     Spec.reasoningBlockOpen
       (snd (Spec.show_transition (Spec.carried reasoning) (Spec.carried answer)
                                  (Spec.block reasoningStarted)))).
Proof.
  destruct reasoning as [| |[|c r]], answer as [| |[|d a]], reasoningStarted;
    cbn; rewrite ?append_empty_r; reflexivity.
Qed.

(** ** Reading back a rewritten event *)

Lemma lookup_modify (k : string) (f : json -> json) ms v :
  lookup k ms = Some v -> lookup k (modify k f ms) = Some (f v).
Proof.
  induction ms as [|[k' x] ms IH]; cbn; [discriminate|].
  destruct (k' =? k) eqn:E; cbn; rewrite E; [now intros [= ->] | exact IH].
Qed.

Lemma lookup_assign (k : string) (x : json) ms :
  lookup k (assign k x ms) = Some x.
Proof.
  induction ms as [|[k' v] ms IH]; cbn.
  - now rewrite String.eqb_refl.
  - destruct (k' =? k) eqn:E; cbn; rewrite E; [reflexivity | exact IH].
Qed.

Lemma lookup_remove (k : string) ms : lookup k (remove k ms) = None.
Proof.
  induction ms as [|[k' v] ms IH]; cbn; [reflexivity|].
  destruct (k' =? k) eqn:E; cbn; [exact IH | now rewrite E].
Qed.

Lemma lookup_remove_other (k k' : string) ms :
  k <> k' -> lookup k (remove k' ms) = lookup k ms.
Proof.
  intros Hne. induction ms as [|[k0 v] ms IH]; cbn; [reflexivity|].
  destruct (k0 =? k') eqn:E; cbn.
  - apply String.eqb_eq in E. subst k0.
    destruct (k' =? k) eqn:E'; [apply String.eqb_eq in E'; congruence | exact IH].
  - now rewrite IH.
Qed.

(** The path [data.choices[0].delta]: when the optional chain of line 115
    finds a delta, the event is an object whose [choices] is an array or an
    object, whose first entry is an object. *)
Lemma first_delta_rewrite (text data delta : json) :
  Stream.first_delta data = Some delta ->
  Stream.first_delta (Stream.rewrite_delta text data) =
    Some (delete_prop "reasoning_content" (set_prop "content" text delta)).
Proof.
  unfold Stream.first_delta, Stream.rewrite_delta.
  set (h := fun d => delete_prop "reasoning_content" (set_prop "content" text d)).
  destruct data as [| | | | |ms]; try discriminate. cbn [chain get_prop at_prop].
  destruct (lookup "choices" ms) as [ch|] eqn:Ech; [|discriminate].
  rewrite (lookup_modify _ _ _ _ Ech).
  destruct ch as [| | |s|items|cs]; try discriminate; cbn [chain get_first at_first].
  - destruct s as [|c s]; [discriminate|]. cbn. discriminate.
  - destruct items as [|c0 items]; [discriminate|]. cbn [hd_error chain get_first].
    destruct c0 as [| | | | |c0]; try discriminate. cbn [chain get_prop at_prop].
    intros H. now rewrite (lookup_modify _ _ _ _ H).
  - destruct (lookup "0" cs) as [c0|] eqn:E0; [|discriminate].
    rewrite (lookup_modify _ _ _ _ E0).
    destruct c0 as [| | | | |c0]; try discriminate. cbn [chain get_prop at_prop].
    intros H. now rewrite (lookup_modify _ _ _ _ H).
Qed.

Lemma rewritten_delta_fields (text : json) ms :
  exists ms',
    delete_prop "reasoning_content" (set_prop "content" text (JObj ms)) = JObj ms' /\
    lookup "content" ms' = Some text /\
    lookup "reasoning_content" ms' = None.
Proof.
  eexists. split; [reflexivity|]. split.
  - rewrite lookup_remove_other by discriminate. apply lookup_assign.
  - apply lookup_remove.
Qed.

(** ** C3: the hide policy *)

Section Hide.

Variable JSON_parse : string -> option json.
Variable JSON_stringify : json -> string.

Local Abbreviation on_line := (Stream.on_line JSON_parse JSON_stringify false).
Local Abbreviation on_lines := (Stream.on_lines JSON_parse JSON_stringify false).
Local Abbreviation run := (Stream.run JSON_parse JSON_stringify false).

Lemma hide_on_event data started :
  snd (Stream.on_event JSON_stringify false data started) = started.
Proof. unfold Stream.on_event. now destruct (Stream.present _). Qed.

Lemma hide_on_line line started : snd (on_line line started) = started.
Proof.
  unfold Stream.on_line.
  destruct (_ || _); [reflexivity|].
  destruct (_ =? "[DONE]"); [reflexivity|].
  destruct (JSON_parse _); [apply hide_on_event | reflexivity].
Qed.

Lemma hide_on_lines lines started : snd (on_lines lines started) = started.
Proof.
  revert started. induction lines as [|l ls IH]; intros started; cbn; [reflexivity|].
  pose proof (hide_on_line l started) as H.
  destruct (on_line l started) as [w s]. cbn in H. subst s.
  specialize (IH started). now destruct (on_lines ls started).
Qed.

Lemma hide_run chunks st :
  Stream.reasoningStarted (snd (run st chunks)) = Stream.reasoningStarted st.
Proof.
  rewrite run_feed.
  destruct (Reassembler.feed (Stream.buffer st) chunks) as [lines final].
  pose proof (hide_on_lines lines (Stream.reasoningStarted st)) as H.
  destruct (on_lines lines (Stream.reasoningStarted st)) as [w s]. exact H.
Qed.

End Hide.

(** C3.  Under the hide policy, a delta object whose [content] is missing,
    [null] or a string is re-emitted with [content] set to that text when it
    is non-empty and to the empty string otherwise and with
    [reasoning_content] deleted, whatever the reasoning was;
    [reasoningStarted] is never changed, so it is [false] after any stream. *)
Theorem hide_policy
  (JSON_parse : string -> option json) (JSON_stringify : json -> string)
  (data : json) (ms : list (string * json)) (answer : Spec.text_field)
  (reasoningStarted : bool) :
  Stream.first_delta data = Some (JObj ms) ->
  lookup "content" ms = Spec.field_value answer ->
  let text := JStr (Spec.text_or_empty (Spec.carried answer)) in
  Stream.on_event JSON_stringify false data reasoningStarted =
    ([Stream.frame (JSON_stringify (Stream.rewrite_delta text data))], reasoningStarted) /\
  (exists ms',
     Stream.first_delta (Stream.rewrite_delta text data) = Some (JObj ms') /\
     lookup "content" ms' = Some text /\
     lookup "reasoning_content" ms' = None) /\
  (forall line started,
     snd (Stream.on_line JSON_parse JSON_stringify false line started) = started) /\
  (forall chunks,
     Stream.reasoningStarted
       (snd (Stream.run JSON_parse JSON_stringify false Stream.initial chunks)) = false).
Proof.
  intros Hdelta Hcontent. cbv zeta. repeat split.
  - unfold Stream.on_event. rewrite Hdelta. cbn [Stream.present truthy get_prop].
    rewrite Hcontent.
    now destruct answer as [| |[|c s]].
  - destruct (rewritten_delta_fields
                (JStr (Spec.text_or_empty (Spec.carried answer))) ms)
      as (ms' & E & Hc & Hr).
    exists ms'. rewrite (first_delta_rewrite _ _ _ Hdelta), E. auto.
  - apply hide_on_line.
  - intros chunks. apply (hide_run JSON_parse JSON_stringify chunks Stream.initial).
Qed.

Lemma hide_policy_witness :
  Stream.on_event Sample.stringify false Sample.thinking false =
    ([Stream.frame (Sample.stringify (Sample.event (JObj [("content", JStr "")])))], false).
Proof.
  exact (proj1 (hide_policy Sample.parse Sample.stringify Sample.thinking
                  [("reasoning_content", JStr "hmm"); ("content", JNull)]
                  Spec.Null false eq_refl eq_refl)).
Defined.

(** ** C4 and C7: what a line yields *)

Section Lines.

Variable JSON_parse : string -> option json.
Variable JSON_stringify : json -> string.
Variable SHOW_REASONING : bool.

Local Abbreviation on_line := (Stream.on_line JSON_parse JSON_stringify SHOW_REASONING).
Local Abbreviation on_lines := (Stream.on_lines JSON_parse JSON_stringify SHOW_REASONING).

Lemma data_frame_not_blank line :
  Spec.is_data_frame line = true ->
  (Js.trim line =? "") || negb (Js.startsWith (Js.trim line) "data: ") = false.
Proof.
  unfold Spec.is_data_frame. intros H. rewrite H.
  destruct (Js.trim line); [discriminate H | reflexivity].
Qed.

Lemma on_line_terminal line started :
  Spec.is_data_frame line = true -> Spec.payload line = "[DONE]" ->
  on_line line started = ([Spec.terminal_frame], started).
Proof.
  intros Hd Hp. unfold Stream.on_line.
  rewrite (data_frame_not_blank _ Hd).
  unfold Spec.payload in Hp. now rewrite Hp.
Qed.

Lemma on_line_nothing line started :
  Spec.yields_nothing JSON_parse line -> on_line line started = ([], started).
Proof.
  unfold Stream.on_line. intros [Hblank | [Hother | (Hnd & Hbad)]].
  - now rewrite Hblank.
  - unfold Spec.is_data_frame in Hother. rewrite Hother.
    now rewrite orb_true_r.
  - destruct (_ || _); [reflexivity|].
    unfold Spec.payload in *.
    apply String.eqb_neq in Hnd. rewrite Hnd.
    destruct Hbad as [Hnone | (data & Hsome & Hdelta)].
    + now rewrite Hnone.
    + rewrite Hsome. unfold Stream.on_event. now rewrite Hdelta.
Qed.

Lemma on_lines_skip line before after started :
  (forall s, on_line line s = ([], s)) ->
  on_lines (before ++ line :: after) started = on_lines (before ++ after) started.
Proof.
  intros Hskip. rewrite !on_lines_app.
  destruct (on_lines before started) as [w1 s1].
  cbn [Stream.on_lines]. rewrite Hskip.
  now destruct (on_lines after s1).
Qed.

End Lines.

(** C4, as stated, fails: after the terminal frame the listener goes on to
    the next line.  Here a [[DONE]] frame is followed by an answer delta,
    under the policy of the source ([SHOW_REASONING = false]): both are
    written. *)
Lemma terminal_is_not_last :
  Stream.respond Sample.parse Sample.stringify false
    ["data: [DONE]" ++ Js.LF ++ "data: " ++ Sample.stringify Sample.answering ++ Js.LF] =
    [Stream.Write Spec.terminal_frame;
     Stream.Write (Stream.frame (Sample.stringify Sample.answering));
     Stream.EndResponse] /\
  ~ Spec.ends_at_terminal
      (Stream.respond Sample.parse Sample.stringify false
         ["data: [DONE]" ++ Js.LF ++ "data: " ++ Sample.stringify Sample.answering ++ Js.LF]).
Proof.
  assert (E : Stream.respond Sample.parse Sample.stringify false
    ["data: [DONE]" ++ Js.LF ++ "data: " ++ Sample.stringify Sample.answering ++ Js.LF] =
    [Stream.Write Spec.terminal_frame;
     Stream.Write (Stream.frame (Sample.stringify Sample.answering));
     Stream.EndResponse]) by (vm_compute; reflexivity).
  split; [exact E|].
  intros H. rewrite E in H.
  specialize (H [] _ eq_refl). discriminate H.
Qed.

(** C4, amended.  A [[DONE]] data frame makes the listener write exactly one
    terminal frame, without decoding anything and without touching
    [reasoningStarted]; the lines after it are handled as usual, from the
    same state. *)
Theorem terminal_passthrough
  (JSON_parse : string -> option json) (JSON_stringify : json -> string)
  (SHOW_REASONING : bool) (line : string) (rest : list string) (started : bool) :
  Spec.is_data_frame line = true ->
  Spec.payload line = "[DONE]" ->
  Stream.on_line JSON_parse JSON_stringify SHOW_REASONING line started =
    ([Spec.terminal_frame], started) /\
  Stream.on_lines JSON_parse JSON_stringify SHOW_REASONING (line :: rest) started =
    (Spec.terminal_frame ::
       fst (Stream.on_lines JSON_parse JSON_stringify SHOW_REASONING rest started),
     snd (Stream.on_lines JSON_parse JSON_stringify SHOW_REASONING rest started)).
Proof.
  intros Hd Hp.
  pose proof (on_line_terminal JSON_parse JSON_stringify SHOW_REASONING
                line started Hd Hp) as H.
  split; [exact H|].
  cbn [Stream.on_lines]. rewrite H.
  now destruct (Stream.on_lines _ _ _ rest started).
Qed.

Lemma terminal_passthrough_witness :
  Stream.on_lines Sample.parse Sample.stringify true
    ["  data:   [DONE] "; "data: [DONE]"] true =
    ([Spec.terminal_frame; Spec.terminal_frame], true).
Proof.
  exact (proj2 (terminal_passthrough Sample.parse Sample.stringify true
                  "  data:   [DONE] " ["data: [DONE]"] true eq_refl eq_refl)).
Defined.

(** C7.  A line that is blank once trimmed, or does not start with
    ["data: "], or whose payload does not parse, or parses to a value without
    a (truthy) [choices[0].delta], makes the listener write nothing and leaves
    [reasoningStarted] as it was; the lines around it are handled as if it
    were not there. *)
Theorem malformed_tolerance
  (JSON_parse : string -> option json) (JSON_stringify : json -> string)
  (SHOW_REASONING : bool) (line : string) :
  Spec.yields_nothing JSON_parse line ->
  (forall started,
     Stream.on_line JSON_parse JSON_stringify SHOW_REASONING line started = ([], started)) /\
  (forall before after started,
     Stream.on_lines JSON_parse JSON_stringify SHOW_REASONING
       (before ++ line :: after) started =
     Stream.on_lines JSON_parse JSON_stringify SHOW_REASONING (before ++ after) started) /\
  (forall before after rest chunks chunks',
     forallb Reassembler.newline_free (before ++ line :: after) = true ->
     Reassembler.newline_free rest = true ->
     Js.join chunks = Reassembler.wire (before ++ line :: after) ++ rest ->
     Js.join chunks' = Reassembler.wire (before ++ after) ++ rest ->
     Stream.run JSON_parse JSON_stringify SHOW_REASONING Stream.initial chunks =
     Stream.run JSON_parse JSON_stringify SHOW_REASONING Stream.initial chunks').
Proof.
  intros H.
  assert (Hskip : forall s,
    Stream.on_line JSON_parse JSON_stringify SHOW_REASONING line s = ([], s))
    by (intros s; now apply on_line_nothing).
  split; [exact Hskip|].
  split; [intros before after started; now apply on_lines_skip|].
  intros before after rest chunks chunks' Hf Hr Hj Hj'.
  assert (Hf' : forallb Reassembler.newline_free (before ++ after) = true).
  { rewrite forallb_app in *. cbn [forallb] in Hf.
    apply andb_prop in Hf as [H1 H2]. apply andb_prop in H2 as [_ H2].
    now rewrite H1, H2. }
  rewrite (run_frames _ _ _ _ _ _ Hf Hr Hj), (run_frames _ _ _ _ _ _ Hf' Hr Hj').
  now rewrite on_lines_skip.
Qed.

Lemma malformed_tolerance_witness :
  Stream.on_lines Sample.parse Sample.stringify true
    ["data: " ++ Sample.stringify Sample.thinking; "data: {not json";
     "data: " ++ Sample.stringify Sample.answering] false =
  Stream.on_lines Sample.parse Sample.stringify true
    ["data: " ++ Sample.stringify Sample.thinking;
     "data: " ++ Sample.stringify Sample.answering] false.
Proof.
  refine (proj1 (proj2 (malformed_tolerance Sample.parse Sample.stringify true
                   "data: {not json" _))
            ["data: " ++ Sample.stringify Sample.thinking]
            ["data: " ++ Sample.stringify Sample.answering] false).
  right; right. split.
  - vm_compute. discriminate.
  - left. vm_compute. reflexivity.
Defined.

(** ** Pieces of the text merged under the show policy *)

Lemma join_app (l1 l2 : list string) : Js.join (l1 ++ l2) = Js.join l1 ++ Js.join l2.
Proof.
  induction l1 as [|x l1 IH]; cbn; [reflexivity|].
  unfold Js.join in IH. now rewrite IH, append_assoc.
Qed.

Lemma render_app (p q : list Spec.piece) :
  Spec.render (p ++ q) = Spec.render p ++ Spec.render q.
Proof. unfold Spec.render. now rewrite map_app, join_app. Qed.

Lemma markers_app (p q : list Spec.piece) :
  Spec.markers (p ++ q) = (Spec.markers p ++ Spec.markers q)%list.
Proof. apply filter_app. Qed.

Lemma texts_app (p q : list Spec.piece) :
  Spec.texts (p ++ q) = (Spec.texts p ++ Spec.texts q)%list.
Proof.
  induction p as [|[| |s] p IH]; cbn; [reflexivity | exact IH | exact IH | now rewrite IH].
Qed.

Lemma paired_snoc (n : nat) :
  (Spec.paired n ++ [Spec.OpenMarker; Spec.CloseMarker])%list = Spec.paired (S n).
Proof. induction n as [|n IH]; cbn in *; [reflexivity | now rewrite IH]. Qed.

Lemma paired_cons_snoc (n : nat) :
  (Spec.paired n ++ [Spec.OpenMarker; Spec.CloseMarker])%list =
  Spec.OpenMarker :: Spec.CloseMarker :: Spec.paired n.
Proof. apply paired_snoc. Qed.

(** One delta: the transition's text is its pieces rendered. *)
Lemma delta_pieces_render (e : Spec.DeltaEvent) (s : Spec.MergerState) :
  Spec.show_transition (Spec.carried (Spec.reasoningText e))
                       (Spec.carried (Spec.answerText e)) s =
  (Spec.render (fst (Spec.delta_pieces e s)), snd (Spec.delta_pieces e s)).
Proof.
  destruct e as [r a]. unfold Spec.delta_pieces, Spec.show_transition.
  cbn [Spec.reasoningText Spec.answerText].
  destruct (Spec.carried r), (Spec.carried a), s; cbn;
    rewrite ?append_empty_r, ?append_assoc; reflexivity.
Qed.

Lemma block_open (s : Spec.MergerState) : Spec.block (Spec.reasoningBlockOpen s) = s.
Proof. now destruct s. Qed.

(** The merge over a stream emits the stream's pieces, rendered. *)
Lemma merge_all_pieces (events : list Spec.DeltaEvent) (s : Spec.MergerState) :
  Js.join (map Spec.text_of (fst (Spec.merge_all events (Spec.reasoningBlockOpen s)))) =
    Spec.render (fst (Spec.stream_pieces events s)) /\
  snd (Spec.merge_all events (Spec.reasoningBlockOpen s)) =
    Spec.reasoningBlockOpen (snd (Spec.stream_pieces events s)).
Proof.
  revert s. induction events as [|e events IH]; intros s; cbn [Spec.merge_all Spec.stream_pieces].
  - split; reflexivity.
  - rewrite combine_transition, block_open, delta_pieces_render.
    destruct (Spec.delta_pieces e s) as [p s1]. cbn [fst snd].
    destruct (IH s1) as [IH1 IH2].
    destruct (Spec.merge_all events (Spec.reasoningBlockOpen s1)) as [more final].
    destruct (Spec.stream_pieces events s1) as [q s2]. cbn [fst snd] in *.
    split; [|exact IH2].
    rewrite render_app, <- IH1. reflexivity.
Qed.

Lemma stream_pieces_texts (events : list Spec.DeltaEvent) (s : Spec.MergerState) :
  Spec.texts (fst (Spec.stream_pieces events s)) = Spec.carried_texts events.
Proof.
  revert s. induction events as [|e events IH]; intros s; cbn [Spec.stream_pieces Spec.carried_texts].
  - reflexivity.
  - destruct (Spec.delta_pieces e s) as [p s1] eqn:E.
    specialize (IH s1). destruct (Spec.stream_pieces events s1) as [q s2].
    cbn [fst] in *. rewrite texts_app, IH, app_assoc. f_equal.
    destruct e as [r a]. unfold Spec.delta_pieces in E.
    cbn [Spec.reasoningText Spec.answerText] in *.
    destruct (Spec.carried r), (Spec.carried a), s; cbn in E;
      injection E as <- _; reflexivity.
Qed.

Lemma stream_pieces_last (events : list Spec.DeltaEvent) (e : Spec.DeltaEvent)
  (s : Spec.MergerState) :
  Spec.stream_pieces (events ++ [e]) s =
  let (p, s1) := Spec.stream_pieces events s in
  let (q, s2) := Spec.delta_pieces e s1 in
  ((p ++ q)%list, s2).
Proof.
  revert s. induction events as [|x events IH]; intros s; cbn [app Spec.stream_pieces].
  - destruct (Spec.delta_pieces e s). now rewrite app_nil_r.
  - destruct (Spec.delta_pieces x s) as [p s1]. rewrite IH.
    destruct (Spec.stream_pieces events s1) as [q s2].
    destruct (Spec.delta_pieces e s2). now rewrite app_assoc.
Qed.

Lemma under_way_last (events : list Spec.DeltaEvent) (e : Spec.DeltaEvent) :
  Spec.reasoning_under_way (events ++ [e]) =
  if Spec.carries_text e then negb (Spec.has_answer e)
  else Spec.reasoning_under_way events.
Proof.
  unfold Spec.reasoning_under_way. rewrite rev_app_distr. cbn [rev app find].
  now destruct (Spec.carries_text e).
Qed.

Lemma reasoning_start_old (events : list Spec.DeltaEvent) (e : Spec.DeltaEvent) (i : nat) :
  i < List.length events ->
  Spec.reasoning_start (events ++ [e]) i = Spec.reasoning_start events i.
Proof.
  intros Hi. unfold Spec.reasoning_start.
  rewrite nth_error_app1 by assumption.
  rewrite firstn_app. replace (i - List.length events) with 0 by lia.
  cbn [firstn]. now rewrite app_nil_r.
Qed.

Lemma reasoning_start_new (events : list Spec.DeltaEvent) (e : Spec.DeltaEvent) :
  Spec.reasoning_start (events ++ [e]) (List.length events) =
  Spec.has_reasoning e && negb (Spec.reasoning_under_way events).
Proof.
  unfold Spec.reasoning_start.
  rewrite nth_error_app2, Nat.sub_diag by lia. cbn [nth_error].
  rewrite firstn_app, Nat.sub_diag, firstn_all. cbn [firstn]. now rewrite app_nil_r.
Qed.

Lemma reasoning_starts_last (events : list Spec.DeltaEvent) (e : Spec.DeltaEvent) :
  Spec.reasoning_starts (events ++ [e]) =
  Spec.reasoning_starts events +
  (if Spec.has_reasoning e && negb (Spec.reasoning_under_way events) then 1 else 0).
Proof.
  unfold Spec.reasoning_starts.
  rewrite length_app. cbn [List.length]. rewrite seq_app, filter_app, length_app.
  cbn [seq filter plus]. rewrite reasoning_start_new.
  f_equal.
  - f_equal. apply filter_ext_in. intros i Hi. apply in_seq in Hi.
    apply reasoning_start_old. lia.
  - now destruct (_ && _).
Qed.

Lemma reasoning_start_lt (events : list Spec.DeltaEvent) (i : nat) :
  Spec.reasoning_start events i = true -> i < List.length events.
Proof.
  unfold Spec.reasoning_start. intros H.
  apply nth_error_Some. now destruct (nth_error events i).
Qed.

(** From the closed state: the markers emitted so far are the closed
    blocks, open then close, followed by one open marker while reasoning is
    under way; every block was opened by a reasoning start. *)
Lemma pieces_invariant (events : list Spec.DeltaEvent) :
  exists closed : nat,
    Spec.reasoning_starts events =
      closed + (if Spec.reasoning_under_way events then 1 else 0) /\
    Spec.markers (fst (Spec.stream_pieces events Spec.Closed)) =
      (Spec.paired closed ++
       (if Spec.reasoning_under_way events then [Spec.OpenMarker] else []))%list /\
    snd (Spec.stream_pieces events Spec.Closed) =
      Spec.block (Spec.reasoning_under_way events).
Proof.
  induction events as [|e events IH] using rev_ind.
  - exists 0. repeat split.
  - destruct IH as (closed & Hstarts & Hmarkers & Hstate).
    rewrite stream_pieces_last, under_way_last, reasoning_starts_last, Hstarts.
    destruct (Spec.stream_pieces events Spec.Closed) as [p s1].
    cbn [fst snd] in Hmarkers, Hstate. subst s1.
    destruct e as [r a].
    unfold Spec.delta_pieces, Spec.carries_text, Spec.has_reasoning, Spec.has_answer.
    cbn [Spec.reasoningText Spec.answerText].
    destruct (Spec.carried r) as [tr|], (Spec.carried a) as [ta|],
      (Spec.reasoning_under_way events);
      cbn [Spec.block fst snd orb andb negb]; rewrite markers_app, Hmarkers.
    all: first
      [ exists closed; cbn; rewrite <- ?app_assoc; cbn;
        rewrite ?app_nil_r, ?paired_cons_snoc;
        split; [lia | split; reflexivity]
      | exists (S closed); cbn; rewrite <- ?app_assoc; cbn;
        rewrite ?app_nil_r, ?paired_cons_snoc;
        split; [lia | split; reflexivity] ].
Qed.

(** Reasoning under way at the end of a stream was started by a delta that
    no answer follows. *)
Lemma under_way_unanswered (events : list Spec.DeltaEvent) :
  Spec.reasoning_under_way events = true ->
  exists i,
    Spec.reasoning_start events i = true /\
    forall j e, i <= j -> nth_error events j = Some e -> Spec.has_answer e = false.
Proof.
  induction events as [|e events IH] using rev_ind; [discriminate|].
  rewrite under_way_last.
  assert (Hlast : forall j e',
            List.length events <= j -> nth_error (events ++ [e]) j = Some e' -> e' = e).
  { intros j e' Hj Hn. rewrite nth_error_app2 in Hn by assumption.
    destruct (j - List.length events) as [|k]; cbn in Hn; [congruence|].
    now destruct k. }
  assert (Hold : Spec.has_answer e = false ->
                 Spec.reasoning_under_way events = true ->
                 exists i,
                   Spec.reasoning_start (events ++ [e]) i = true /\
                   forall j e', i <= j -> nth_error (events ++ [e]) j = Some e' ->
                                Spec.has_answer e' = false).
  { intros Hna Hu. destruct (IH Hu) as (i & Hi & Hafter).
    pose proof (reasoning_start_lt _ _ Hi) as Hlt.
    exists i. split; [now rewrite reasoning_start_old|].
    intros j e' Hij Hn.
    destruct (Nat.lt_ge_cases j (List.length events)) as [Hj|Hj].
    - rewrite nth_error_app1 in Hn by assumption. eapply Hafter; eassumption.
    - now rewrite (Hlast j e' Hj Hn). }
  destruct (Spec.carries_text e) eqn:Hc.
  - intros Hna. apply negb_true_iff in Hna.
    destruct (Spec.reasoning_under_way events) eqn:Hu; [now apply Hold|].
    exists (List.length events). split.
    + rewrite reasoning_start_new, Hu.
      unfold Spec.carries_text in Hc. rewrite Hna, orb_false_r in Hc. now rewrite Hc.
    + intros j e' Hj Hn. now rewrite (Hlast j e' Hj Hn).
  - intros Hu. apply Hold; [|exact Hu].
    unfold Spec.carries_text in Hc. now apply orb_false_elim in Hc.
Qed.

(** ** The show policy on the listener (lines 102-146 with line 120 taken) *)

Section Show.

Variable JSON_parse : string -> option json.
Variable JSON_stringify : json -> string.

Local Abbreviation on_event := (Stream.on_event JSON_stringify true).
Local Abbreviation on_line := (Stream.on_line JSON_parse JSON_stringify true).
Local Abbreviation on_lines := (Stream.on_lines JSON_parse JSON_stringify true).

Lemma show_on_event data ms (reasoning answer : Spec.text_field) started :
  Stream.first_delta data = Some (JObj ms) ->
  lookup "reasoning_content" ms = Spec.field_value reasoning ->
  lookup "content" ms = Spec.field_value answer ->
  on_event data started =
    ([Stream.frame
        (JSON_stringify
           (if fst (Spec.show_transition (Spec.carried reasoning) (Spec.carried answer)
                                         (Spec.block started)) =? ""
            then data
            else Stream.rewrite_delta
                   (JStr (fst (Spec.show_transition (Spec.carried reasoning)
                                 (Spec.carried answer) (Spec.block started)))) data))],
     Spec.reasoningBlockOpen
       (snd (Spec.show_transition (Spec.carried reasoning) (Spec.carried answer)
                                  (Spec.block started)))).
Proof.
  intros Hdelta Hr Ha. unfold Stream.on_event. rewrite Hdelta.
  cbn [Stream.present truthy get_prop]. rewrite Hr, Ha, combine_transition.
  cbn [truthy]. now destruct (_ =? "").
Qed.

Lemma show_on_line line data e started :
  Spec.carries JSON_parse line data e ->
  on_line line started = on_event data started.
Proof.
  intros (Hd & Hnd & Hparse & _). unfold Stream.on_line.
  rewrite (data_frame_not_blank _ Hd). unfold Spec.payload in *.
  apply String.eqb_neq in Hnd. now rewrite Hnd, Hparse.
Qed.

Lemma emitted_text_written data ms (reasoning answer : Spec.text_field) started :
  Stream.first_delta data = Some (JObj ms) ->
  lookup "content" ms = Spec.field_value answer ->
  Spec.emitted_text
    (if fst (Spec.show_transition (Spec.carried reasoning) (Spec.carried answer)
                                  (Spec.block started)) =? ""
     then data
     else Stream.rewrite_delta
            (JStr (fst (Spec.show_transition (Spec.carried reasoning)
                          (Spec.carried answer) (Spec.block started)))) data) =
  fst (Spec.show_transition (Spec.carried reasoning) (Spec.carried answer)
                            (Spec.block started)).
Proof.
  intros Hdelta Ha.
  destruct (_ =? "") eqn:E.
  - apply String.eqb_eq in E. rewrite E.
    unfold Spec.emitted_text. rewrite Hdelta. cbn [chain get_prop]. rewrite Ha.
    destruct answer as [| |[|d a]]; try reflexivity.
    exfalso. destruct reasoning as [| |[|c r]], started; cbn in E; discriminate E.
  - destruct (rewritten_delta_fields
                (JStr (fst (Spec.show_transition (Spec.carried reasoning)
                              (Spec.carried answer) (Spec.block started)))) ms)
      as (ms' & E' & Hc & _).
    unfold Spec.emitted_text.
    rewrite (first_delta_rewrite _ _ _ Hdelta), E'. cbn [chain get_prop].
    now rewrite Hc.
Qed.

(** The listener over delta-carrying lines writes one frame per line; the
    texts of the events written and the final [reasoningStarted] are those
    of the merge of lines 121-134 folded over the deltas. *)
Lemma listener_merges (stream : Spec.carried_stream) :
  Spec.all_carried JSON_parse stream ->
  forall started,
  exists payloads,
    on_lines (Spec.lines_of stream) started =
      (map (fun d => Stream.frame (JSON_stringify d)) payloads,
       snd (Spec.merge_all (Spec.events_of stream) started)) /\
    Forall2 Spec.written_for stream payloads /\
    map Spec.emitted_text payloads =
      map Spec.text_of (fst (Spec.merge_all (Spec.events_of stream) started)).
Proof.
  induction 1 as [|[[line data] e] stream Hc Hall IH]; intros started.
  - exists []. repeat split. constructor.
  - cbn [fst snd] in Hc.
    pose proof (show_on_line line data e started Hc) as Hline.
    destruct Hc as (_ & _ & _ & ms & Hdelta & Hr & Ha).
    rewrite (show_on_event data ms _ _ started Hdelta Hr Ha) in Hline.
    pose proof (emitted_text_written data ms (Spec.reasoningText e) (Spec.answerText e)
                  started Hdelta Ha) as Htext.
    set (next := Spec.show_transition (Spec.carried (Spec.reasoningText e))
                   (Spec.carried (Spec.answerText e)) (Spec.block started)) in *.
    set (payload := if fst next =? "" then data
                    else Stream.rewrite_delta (JStr (fst next)) data) in *.
    destruct (IH (Spec.reasoningBlockOpen (snd next))) as (payloads & Hrest & Hfor & Htexts).
    exists (payload :: payloads).
    cbn [Spec.lines_of Spec.events_of map fst snd Stream.on_lines Spec.merge_all].
    fold (Spec.lines_of stream). fold (Spec.events_of stream).
    rewrite Hline, Hrest, combine_transition. fold next.
    destruct (Spec.merge_all (Spec.events_of stream) (Spec.reasoningBlockOpen (snd next)))
      as [more final]. cbn [fst snd map Spec.text_of] in *.
    split; [reflexivity|]. split.
    + constructor; [|exact Hfor]. unfold Spec.written_for. cbn [fst snd].
      rewrite Htext. subst payload. destruct (fst next =? ""); [now left | now right].
    + now rewrite Htext, Htexts.
Qed.

End Show.

(** *** Markers found in the text written *)

Lemma occurrences_plain (pattern text rest : string) :
  Spec.plain text = true ->
  Spec.occurrences (String "<" pattern) (text ++ rest) =
  Spec.occurrences (String "<" pattern) rest.
Proof.
  induction text as [|c text IH]; [reflexivity|].
  cbn [Spec.plain append]. intros H. apply andb_prop in H as [Hc Ht].
  cbn [Spec.occurrences prefix]. rewrite (IH Ht).
  destruct (ascii_dec "<" c) as [<-|_]; [discriminate Hc | reflexivity].
Qed.

Lemma occurrences_open_open (rest : string) :
  Spec.occurrences Stream.open_marker (Stream.open_marker ++ rest) =
  S (Spec.occurrences Stream.open_marker rest).
Proof. cbn. now destruct rest. Qed.

Lemma occurrences_open_close (rest : string) :
  Spec.occurrences Stream.open_marker (Stream.close_marker ++ rest) =
  Spec.occurrences Stream.open_marker rest.
Proof. reflexivity. Qed.

Lemma occurrences_close_close (rest : string) :
  Spec.occurrences Stream.close_marker (Stream.close_marker ++ rest) =
  S (Spec.occurrences Stream.close_marker rest).
Proof. cbn. now destruct rest. Qed.

Lemma occurrences_close_open (rest : string) :
  Spec.occurrences Stream.close_marker (Stream.open_marker ++ rest) =
  Spec.occurrences Stream.close_marker rest.
Proof. reflexivity. Qed.

(** In the rendering of pieces whose texts hold no ["<"], each marker
    occurs as many times as it was inserted. *)
Lemma occurrences_render (pieces : list Spec.piece) :
  forallb Spec.plain (Spec.texts pieces) = true ->
  Spec.occurrences Stream.open_marker (Spec.render pieces) =
    List.length (filter Spec.is_open pieces) /\
  Spec.occurrences Stream.close_marker (Spec.render pieces) =
    List.length (filter Spec.is_close pieces).
Proof.
  induction pieces as [|p ps IH]; [intros _; split; reflexivity|].
  change (Spec.render (p :: ps)) with (Spec.render_piece p ++ Spec.render ps).
  destruct p as [| |s]; cbn [Spec.texts forallb Spec.render_piece filter
                             Spec.is_open Spec.is_close List.length]; intros H.
  - destruct (IH H) as [IH1 IH2].
    now rewrite occurrences_open_open, occurrences_close_open, IH1, IH2.
  - destruct (IH H) as [IH1 IH2].
    now rewrite occurrences_open_close, occurrences_close_close, IH1, IH2.
  - apply andb_prop in H as [Hs H]. destruct (IH H) as [IH1 IH2].
    unfold Stream.open_marker, Stream.close_marker in *. cbn [append] in *.
    now rewrite !occurrences_plain by exact Hs.
Qed.

Lemma filter_open_markers (pieces : list Spec.piece) :
  filter Spec.is_open pieces = filter Spec.is_open (Spec.markers pieces) /\
  filter Spec.is_close pieces = filter Spec.is_close (Spec.markers pieces).
Proof.
  unfold Spec.markers. induction pieces as [|[| |s] ps [IH1 IH2]]; cbn;
    rewrite ?IH1, ?IH2; split; reflexivity.
Qed.

Lemma paired_counts (n : nat) (tail : list Spec.piece) :
  List.length (filter Spec.is_open (Spec.paired n ++ tail)) =
    n + List.length (filter Spec.is_open tail) /\
  List.length (filter Spec.is_close (Spec.paired n ++ tail)) =
    n + List.length (filter Spec.is_close tail).
Proof.
  induction n as [|n [IH1 IH2]]; cbn; [split; reflexivity|].
  now rewrite IH1, IH2.
Qed.

(** ** Chunks as buffers *)

Lemma chunks_run (toString : Chunks.Buffer -> string)
  (JSON_parse : string -> option json) (JSON_stringify : json -> string)
  (SHOW_REASONING : bool) (chunks : list Chunks.Buffer) (st : Stream.state) :
  Chunks.run toString JSON_parse JSON_stringify SHOW_REASONING st chunks =
  Stream.run JSON_parse JSON_stringify SHOW_REASONING st (map toString chunks).
Proof.
  revert st. induction chunks as [|c cs IH]; intros st; [reflexivity|].
  cbn [Chunks.run map Stream.run]. unfold Chunks.on_data.
  destruct (Stream.on_data _ _ _ st (toString c)) as [w st'].
  now rewrite IH.
Qed.

(** ** C2: the show-policy merge *)

(** C2.  Under the show policy, for a data line whose event has a delta
    object with textual fields, the listener implements the transition
    function of section 4.3 on [reasoningStarted], a field being present
    when it carries non-empty text: the merge of lines 121-134 gives the
    transition's text, the callback writes one frame whose event carries
    that text in [content] (the event as it came when the text is empty),
    and the value of [reasoningStarted] it leaves is the transition's new
    state.  The text is the two carried texts with at most one open marker
    in front of the reasoning and at most one close marker in front of the
    answer. *)
Theorem show_merge_transition
  (JSON_parse : string -> option json) (JSON_stringify : json -> string)
  (line : string) (data : json) (e : Spec.DeltaEvent) (reasoningStarted : bool) :
  Spec.carries JSON_parse line data e ->
  let next := Spec.show_transition (Spec.carried (Spec.reasoningText e))
                                   (Spec.carried (Spec.answerText e))
                                   (Spec.block reasoningStarted) in
  let written :=
    if fst next =? "" then data else Stream.rewrite_delta (JStr (fst next)) data in
  Stream.combine (Spec.field_value (Spec.reasoningText e))
                 (Spec.field_value (Spec.answerText e)) reasoningStarted =
    (Some (JStr (fst next)), Spec.reasoningBlockOpen (snd next)) /\
  Stream.on_event JSON_stringify true data reasoningStarted =
    ([Stream.frame (JSON_stringify written)], Spec.reasoningBlockOpen (snd next)) /\
  Stream.on_line JSON_parse JSON_stringify true line reasoningStarted =
    ([Stream.frame (JSON_stringify written)], Spec.reasoningBlockOpen (snd next)) /\
  Spec.emitted_text written = fst next /\
  exists opened closed : bool,
    fst next =
      (if opened then Stream.open_marker else "") ++
      Spec.text_or_empty (Spec.carried (Spec.reasoningText e)) ++
      (if closed then Stream.close_marker else "") ++
      Spec.text_or_empty (Spec.carried (Spec.answerText e)).
Proof.
  intros Hc. cbv zeta.
  pose proof (show_on_line JSON_parse JSON_stringify line data e reasoningStarted Hc)
    as Hline.
  destruct Hc as (_ & _ & _ & ms & Hdelta & Hr & Ha).
  pose proof (show_on_event JSON_stringify data ms _ _ reasoningStarted Hdelta Hr Ha)
    as Hevent.
  split; [apply combine_transition|].
  split; [exact Hevent|].
  split; [now rewrite Hline|].
  split; [exact (emitted_text_written data ms _ _ reasoningStarted Hdelta Ha)|].
  destruct e as [reasoning answer]. cbn [Spec.reasoningText Spec.answerText].
  destruct reasoning as [| |[|c r]], answer as [| |[|d a]], reasoningStarted.
  all: cbn.
  all: try (exists false, false; cbn; now rewrite ?append_empty_r).
  all: try (exists true, false; cbn; now rewrite ?append_empty_r).
  all: try (exists false, true; cbn; now rewrite ?append_empty_r).
  all: try (exists true, true; cbn; now rewrite ?append_empty_r).
Qed.

Lemma show_merge_transition_witness :
  Stream.on_line Sample.parse Sample.stringify true
    ("data: " ++ Sample.stringify Sample.thinking) false =
    ([Stream.frame
        (Sample.stringify
           (Sample.event (JObj [("content", JStr (Stream.open_marker ++ "hmm"))])))],
     true).
Proof.
  refine (proj1 (proj2 (proj2 (show_merge_transition Sample.parse Sample.stringify
            ("data: " ++ Sample.stringify Sample.thinking) Sample.thinking
            {| Spec.reasoningText := Spec.Text "hmm"; Spec.answerText := Spec.Null |}
            false _)))).
  split; [reflexivity|]. split; [vm_compute; discriminate|].
  split; [vm_compute; reflexivity|].
  eexists. split; [reflexivity|]. split; reflexivity.
Defined.

(** ** C5: marker pairing under the show policy *)

(** C5, as stated, fails: the markers contained in the output are counted,
    and a carried text can hold one.  Here one reasoning delta whose text is
    the text of the open marker, then an answer delta: one reasoning start,
    two open markers in the text written. *)
Lemma marker_text_is_counted :
  Stream.on_lines Sample.parse Sample.stringify true
    ["data: " ++ Sample.stringify Sample.echoing;
     "data: " ++ Sample.stringify Sample.answering] false =
    ([Stream.frame
        (Sample.stringify
           (Sample.event
              (JObj [("content", JStr (Stream.open_marker ++ Stream.open_marker))])));
      Stream.frame
        (Sample.stringify
           (Sample.event (JObj [("content", JStr (Stream.close_marker ++ "hi"))])))],
     false) /\
  Spec.reasoning_starts
    [ {| Spec.reasoningText := Spec.Text Stream.open_marker; Spec.answerText := Spec.Null |};
      {| Spec.reasoningText := Spec.Missing; Spec.answerText := Spec.Text "hi" |} ] = 1 /\
  Spec.occurrences Stream.open_marker
    ((Stream.open_marker ++ Stream.open_marker) ++ Stream.close_marker ++ "hi") = 2.
Proof. split; [|split]; vm_compute; reflexivity. Qed.

Section Paired.

Variable JSON_parse : string -> option json.
Variable JSON_stringify : json -> string.

(** What the listener writes for a stream of delta-carrying lines under
    the show policy, from [reasoningStarted = false]. *)
Lemma listener_pieces (stream : Spec.carried_stream) :
  Spec.all_carried JSON_parse stream ->
  exists payloads closed,
    Stream.on_lines JSON_parse JSON_stringify true (Spec.lines_of stream) false =
      (map (fun d => Stream.frame (JSON_stringify d)) payloads,
       Spec.reasoning_under_way (Spec.events_of stream)) /\
    Forall2 Spec.written_for stream payloads /\
    Js.join (map Spec.emitted_text payloads) =
      Spec.render (fst (Spec.stream_pieces (Spec.events_of stream) Spec.Closed)) /\
    Spec.markers (fst (Spec.stream_pieces (Spec.events_of stream) Spec.Closed)) =
      (Spec.paired closed ++
       (if Spec.reasoning_under_way (Spec.events_of stream)
        then [Spec.OpenMarker] else []))%list /\
    Spec.reasoning_starts (Spec.events_of stream) =
      closed + (if Spec.reasoning_under_way (Spec.events_of stream) then 1 else 0).
Proof.
  intros Hall.
  destruct (listener_merges JSON_parse JSON_stringify stream Hall false)
    as (payloads & Hlines & Hfor & Htexts).
  destruct (pieces_invariant (Spec.events_of stream))
    as (closed & Hstarts & Hmarkers & Hstate).
  destruct (merge_all_pieces (Spec.events_of stream) Spec.Closed) as [Hrender Hfinal].
  cbn [Spec.reasoningBlockOpen] in Hrender, Hfinal.
  exists payloads, closed.
  split.
  - rewrite Hlines, Hfinal, Hstate.
    now destruct (Spec.reasoning_under_way (Spec.events_of stream)).
  - split; [exact Hfor|]. split; [now rewrite Htexts|]. split; assumption.
Qed.

Lemma literal_counts (pieces : list Spec.piece) (closed : nat) (tail : list Spec.piece) :
  Spec.markers pieces = (Spec.paired closed ++ tail)%list ->
  forallb Spec.plain (Spec.texts pieces) = true ->
  Spec.occurrences Stream.open_marker (Spec.render pieces) =
    closed + List.length (filter Spec.is_open tail) /\
  Spec.occurrences Stream.close_marker (Spec.render pieces) =
    closed + List.length (filter Spec.is_close tail).
Proof.
  intros Hm Hplain.
  destruct (occurrences_render pieces Hplain) as [-> ->].
  destruct (filter_open_markers pieces) as [-> ->]. rewrite Hm.
  apply paired_counts.
Qed.

End Paired.

(** C5, amended.  Under the show policy, from [reasoningStarted = false],
    for a stream of data lines whose events have delta objects with textual
    fields, in which every delta that starts reasoning is followed (in the
    same delta or a later one) by a delta carrying an answer: the listener
    writes one frame per line and ends closed; the texts of the events
    written, concatenated, are the carried texts, in order, interleaved
    with inserted markers that read open, close, open, close, ..., as many
    pairs as there are reasoning starts; and when no carried text holds
    ["<"], these are all the markers the output contains: the open marker
    and the close marker each occur exactly that many times. *)
Theorem markers_paired
  (JSON_parse : string -> option json) (JSON_stringify : json -> string)
  (stream : Spec.carried_stream) :
  Spec.all_carried JSON_parse stream ->
  (forall i, Spec.reasoning_start (Spec.events_of stream) i = true ->
             exists j e, i <= j /\ nth_error (Spec.events_of stream) j = Some e /\
                         Spec.has_answer e = true) ->
  exists (payloads : list json) (pieces : list Spec.piece),
    Stream.on_lines JSON_parse JSON_stringify true (Spec.lines_of stream) false =
      (map (fun d => Stream.frame (JSON_stringify d)) payloads, false) /\
    Forall2 Spec.written_for stream payloads /\
    Js.join (map Spec.emitted_text payloads) = Spec.render pieces /\
    Spec.markers pieces = Spec.paired (Spec.reasoning_starts (Spec.events_of stream)) /\
    Spec.texts pieces = Spec.carried_texts (Spec.events_of stream) /\
    (forallb Spec.plain (Spec.carried_texts (Spec.events_of stream)) = true ->
     Spec.occurrences Stream.open_marker (Js.join (map Spec.emitted_text payloads)) =
       Spec.reasoning_starts (Spec.events_of stream) /\
     Spec.occurrences Stream.close_marker (Js.join (map Spec.emitted_text payloads)) =
       Spec.reasoning_starts (Spec.events_of stream)).
Proof.
  intros Hall Hanswered.
  assert (Hclosed : Spec.reasoning_under_way (Spec.events_of stream) = false).
  { destruct (Spec.reasoning_under_way (Spec.events_of stream)) eqn:Hu; [|reflexivity].
    destruct (under_way_unanswered _ Hu) as (i & Hi & Hnone).
    destruct (Hanswered i Hi) as (j & e & Hij & Hn & Ha).
    rewrite (Hnone j e Hij Hn) in Ha. discriminate. }
  destruct (listener_pieces JSON_parse JSON_stringify stream Hall)
    as (payloads & closed & Hlines & Hfor & Hrender & Hmarkers & Hstarts).
  rewrite Hclosed in *. rewrite Nat.add_0_r in Hstarts. subst closed.
  exists payloads, (fst (Spec.stream_pieces (Spec.events_of stream) Spec.Closed)).
  split; [exact Hlines|]. split; [exact Hfor|]. split; [exact Hrender|].
  split; [now rewrite Hmarkers, app_nil_r|].
  split; [apply stream_pieces_texts|].
  intros Hplain. rewrite Hrender.
  rewrite <- (stream_pieces_texts (Spec.events_of stream) Spec.Closed) in Hplain.
  destruct (literal_counts _ _ _ Hmarkers Hplain) as [H1 H2].
  cbn [filter List.length] in H1, H2. rewrite Nat.add_0_r in H1, H2. now split.
Qed.

Lemma markers_paired_witness :
  exists (payloads : list json) (pieces : list Spec.piece),
    Stream.on_lines Sample.parse Sample.stringify true
      ["data: " ++ Sample.stringify Sample.thinking;
       "data: " ++ Sample.stringify Sample.answering] false =
      (map (fun d => Stream.frame (Sample.stringify d)) payloads, false) /\
    Js.join (map Spec.emitted_text payloads) = Spec.render pieces /\
    Spec.markers pieces = Spec.paired 1 /\
    Spec.occurrences Stream.open_marker (Js.join (map Spec.emitted_text payloads)) = 1 /\
    Spec.occurrences Stream.close_marker (Js.join (map Spec.emitted_text payloads)) = 1.
Proof.
  destruct (markers_paired Sample.parse Sample.stringify
    [ ("data: " ++ Sample.stringify Sample.thinking, Sample.thinking,
       {| Spec.reasoningText := Spec.Text "hmm"; Spec.answerText := Spec.Null |});
      ("data: " ++ Sample.stringify Sample.answering, Sample.answering,
       {| Spec.reasoningText := Spec.Missing; Spec.answerText := Spec.Text "hi" |}) ])
    as (payloads & pieces & Hlines & _ & Hrender & Hmarkers & _ & Hcount).
  - repeat (apply Forall_cons;
            [split; [vm_compute; reflexivity|];
             split; [vm_compute; discriminate|];
             split; [vm_compute; reflexivity|];
             eexists; split; [reflexivity | split; reflexivity] |]).
    apply Forall_nil.
  - intros i Hi.
    destruct i as [|[|i]]; try (vm_compute in Hi; discriminate Hi).
    + exists 1. eexists. split; [lia | split; reflexivity].
    + exfalso. unfold Spec.reasoning_start in Hi. cbn [Spec.events_of map nth_error] in Hi.
      now destruct i.
  - exists payloads, pieces.
    destruct (Hcount eq_refl) as [H1 H2].
    split; [exact Hlines|]. split; [exact Hrender|]. split; [exact Hmarkers|].
    split; [exact H1 | exact H2].
Defined.

(** ** C6: the frames written *)

(** C6.  With [SHOW_REASONING] as line 18 sets it, a data frame that is
    not the terminal one and decodes to an event whose delta is an object
    (its [content] missing, [null] or a string) makes the listener write
    exactly one frame: ["data: "], the serialized payload and two line
    feeds, the payload being the event with the delta's [content] set to
    the merged text (the answer text, or the empty string) and its
    [reasoning_content] deleted; [reasoningStarted] is left as it was.  The
    terminal frame is ["data: [DONE]"] and two line feeds. *)
Theorem reemitted_frame
  (JSON_parse : string -> option json) (JSON_stringify : json -> string)
  (line : string) (data : json) (ms : list (string * json))
  (answer : Spec.text_field) (reasoningStarted : bool) :
  Spec.is_data_frame line = true ->
  Spec.payload line <> "[DONE]" ->
  JSON_parse (Spec.payload line) = Some data ->
  Stream.first_delta data = Some (JObj ms) ->
  lookup "content" ms = Spec.field_value answer ->
  let merged := Spec.text_or_empty (Spec.carried answer) in
  let data' := Stream.rewrite_delta (JStr merged) data in
  Stream.on_line JSON_parse JSON_stringify Policy.SHOW_REASONING line reasoningStarted =
    (["data: " ++ JSON_stringify data' ++ Js.LF ++ Js.LF], reasoningStarted) /\
  (exists ms',
     Stream.first_delta data' = Some (JObj ms') /\
     lookup "content" ms' = Some (JStr merged) /\
     lookup "reasoning_content" ms' = None) /\
  (forall done started,
     Spec.is_data_frame done = true -> Spec.payload done = "[DONE]" ->
     Stream.on_line JSON_parse JSON_stringify Policy.SHOW_REASONING done started =
       (["data: [DONE]" ++ Js.LF ++ Js.LF], started)).
Proof.
  intros Hd Hnd Hparse Hdelta Ha. cbv zeta. split; [|split].
  - unfold Stream.on_line. rewrite (data_frame_not_blank _ Hd).
    unfold Spec.payload in *. apply String.eqb_neq in Hnd. rewrite Hnd, Hparse.
    unfold Stream.on_event, Policy.SHOW_REASONING. rewrite Hdelta.
    cbn [Stream.present truthy get_prop]. rewrite Ha.
    now destruct answer as [| |[|c s]].
  - destruct (rewritten_delta_fields
                (JStr (Spec.text_or_empty (Spec.carried answer))) ms)
      as (ms' & E & Hc & Hrc).
    exists ms'. rewrite (first_delta_rewrite _ _ _ Hdelta), E. auto.
  - intros done started Hdone Hp. now apply on_line_terminal.
Qed.

Lemma reemitted_frame_witness :
  Stream.on_line Sample.parse Sample.stringify Policy.SHOW_REASONING
    ("data: " ++ Sample.stringify Sample.answering) true =
    (["data: " ++ Sample.stringify Sample.answering ++ Js.LF ++ Js.LF], true).
Proof.
  refine (proj1 (reemitted_frame Sample.parse Sample.stringify
                   ("data: " ++ Sample.stringify Sample.answering) Sample.answering
                   [("content", JStr "hi")] (Spec.Text "hi") true
                   eq_refl _ eq_refl eq_refl eq_refl)).
  vm_compute. discriminate.
Defined.

(** ** More on the show branch *)

(** In the show branch, an event whose delta carries neither reasoning nor
    answer text is written as it came: the guard of line 136 skips the
    assignment and the [delete], so the payload keeps its
    [reasoning_content] member, and [reasoningStarted] is left as it was. *)
Theorem nothing_merged_goes_through
  (JSON_stringify : json -> string) (data : json) (ms : list (string * json))
  (reasoning answer : Spec.text_field) (reasoningStarted : bool) :
  Stream.first_delta data = Some (JObj ms) ->
  lookup "reasoning_content" ms = Spec.field_value reasoning ->
  lookup "content" ms = Spec.field_value answer ->
  Spec.carried reasoning = None ->
  Spec.carried answer = None ->
  Stream.on_event JSON_stringify true data reasoningStarted =
    ([Stream.frame (JSON_stringify data)], reasoningStarted).
Proof.
  intros Hdelta Hr Ha Hnr Hna.
  rewrite (show_on_event JSON_stringify data ms _ _ reasoningStarted Hdelta Hr Ha).
  rewrite Hnr, Hna. now destruct reasoningStarted.
Qed.

Lemma nothing_merged_goes_through_witness :
  Stream.on_event Sample.stringify true Sample.opening true =
    ([Stream.frame (Sample.stringify Sample.opening)], true).
Proof.
  exact (nothing_merged_goes_through Sample.stringify Sample.opening
           [("role", JStr "assistant"); ("content", JStr ""); ("reasoning_content", JNull)]
           Spec.Null (Spec.Text "") true eq_refl eq_refl eq_refl eq_refl eq_refl).
Defined.

(** Under the show policy, from [reasoningStarted = false], for chunks whose
    decoded texts make up data lines whose events have delta objects with
    textual fields (followed by unterminated text): the listener writes one
    frame per line and then the response is ended, nothing more; the texts
    of the events written, concatenated, are the carried texts, in order,
    with inserted markers that read open, close, ..., open, close, followed
    by one more open marker exactly when the last delta that carried text
    carried reasoning and no answer, which is also when [reasoningStarted]
    is set at the end.  That marker stays unmatched.  When no carried text
    holds ["<"], the output contains these markers and no others. *)
Theorem open_block_is_left_open
  (toString : Chunks.Buffer -> string)
  (JSON_parse : string -> option json) (JSON_stringify : json -> string)
  (stream : Spec.carried_stream) (rest : string) (chunks : list Chunks.Buffer) :
  Spec.all_carried JSON_parse stream ->
  forallb Reassembler.newline_free (Spec.lines_of stream) = true ->
  Reassembler.newline_free rest = true ->
  Js.join (map toString chunks) = Reassembler.wire (Spec.lines_of stream) ++ rest ->
  let under_way := Spec.reasoning_under_way (Spec.events_of stream) in
  exists (payloads : list json) (pieces : list Spec.piece) (closed : nat),
    Chunks.respond toString JSON_parse JSON_stringify true chunks =
      (map Stream.Write (map (fun d => Stream.frame (JSON_stringify d)) payloads) ++
       [Stream.EndResponse])%list /\
    Stream.reasoningStarted
      (snd (Chunks.run toString JSON_parse JSON_stringify true Stream.initial chunks)) =
      under_way /\
    Forall2 Spec.written_for stream payloads /\
    Js.join (map Spec.emitted_text payloads) = Spec.render pieces /\
    Spec.texts pieces = Spec.carried_texts (Spec.events_of stream) /\
    Spec.markers pieces =
      (Spec.paired closed ++ (if under_way then [Spec.OpenMarker] else []))%list /\
    Spec.reasoning_starts (Spec.events_of stream) =
      closed + (if under_way then 1 else 0) /\
    (forallb Spec.plain (Spec.carried_texts (Spec.events_of stream)) = true ->
     Spec.occurrences Stream.open_marker (Js.join (map Spec.emitted_text payloads)) =
       closed + (if under_way then 1 else 0) /\
     Spec.occurrences Stream.close_marker (Js.join (map Spec.emitted_text payloads)) =
       closed).
Proof.
  intros Hall Hnl Hrest Hjoin. cbv zeta.
  destruct (listener_pieces JSON_parse JSON_stringify stream Hall)
    as (payloads & closed & Hlines & Hfor & Hrender & Hmarkers & Hstarts).
  pose proof (run_frames JSON_parse JSON_stringify true _ _ _ Hnl Hrest Hjoin) as Hrun.
  rewrite Hlines in Hrun. cbn [fst snd] in Hrun.
  exists payloads, (fst (Spec.stream_pieces (Spec.events_of stream) Spec.Closed)), closed.
  split; [unfold Chunks.respond; now rewrite chunks_run, Hrun|].
  split; [now rewrite chunks_run, Hrun|].
  split; [exact Hfor|]. split; [exact Hrender|].
  split; [apply stream_pieces_texts|]. split; [exact Hmarkers|]. split; [exact Hstarts|].
  intros Hplain. rewrite Hrender.
  rewrite <- (stream_pieces_texts (Spec.events_of stream) Spec.Closed) in Hplain.
  destruct (literal_counts _ _ _ Hmarkers Hplain) as [H1 H2].
  rewrite H1, H2.
  destruct (Spec.reasoning_under_way (Spec.events_of stream)); cbn; split; lia.
Qed.

Lemma open_block_is_left_open_witness :
  exists payloads,
    Chunks.respond Sample.toString Sample.parse Sample.stringify true
      [Sample.bytes "da";
       Sample.bytes ("ta: " ++ Sample.stringify Sample.thinking ++ Js.LF)] =
      (map Stream.Write (map (fun d => Stream.frame (Sample.stringify d)) payloads) ++
       [Stream.EndResponse])%list /\
    Spec.occurrences Stream.open_marker (Js.join (map Spec.emitted_text payloads)) = 1 /\
    Spec.occurrences Stream.close_marker (Js.join (map Spec.emitted_text payloads)) = 0.
Proof.
  destruct (open_block_is_left_open Sample.toString Sample.parse Sample.stringify
    [ ("data: " ++ Sample.stringify Sample.thinking, Sample.thinking,
       {| Spec.reasoningText := Spec.Text "hmm"; Spec.answerText := Spec.Null |}) ]
    ""
    [Sample.bytes "da";
     Sample.bytes ("ta: " ++ Sample.stringify Sample.thinking ++ Js.LF)])
    as (payloads & pieces & closed & Hrespond & _ & _ & _ & _ & _ & Hstarts & Hcount).
  - repeat (apply Forall_cons;
            [split; [vm_compute; reflexivity|];
             split; [vm_compute; discriminate|];
             split; [vm_compute; reflexivity|];
             eexists; split; [reflexivity | split; reflexivity] |]).
    apply Forall_nil.
  - vm_compute; reflexivity.
  - reflexivity.
  - vm_compute; reflexivity.
  - exists payloads. split; [exact Hrespond|].
    change (1 = closed + 1) in Hstarts.
    assert (Hc : closed = 0) by lia. rewrite Hc in Hcount.
    destruct (Hcount eq_refl) as [H1 H2].
    split; [exact H1 | exact H2].
Defined.

(** ** C8, C9, C10: the request sent to the backend *)

Import Request.

(** The resolver of section 6 is what lines 64-73 compute for every
    identifier that does not name a member of [Object.prototype]. *)
Lemma resolve_outside_prototype (identifier : string) :
  existsb (String.eqb identifier) Object_prototype = false ->
  resolve (Some (JStr identifier)) = Normal (Backend (Spec.resolver identifier)).
Proof.
  intros Hout. unfold resolve, Spec.resolver, MODEL_MAPPING_get.
  cbn [property_key to_str].
  destruct (own identifier MODEL_MAPPING) as [name|]; [reflexivity|].
  rewrite Hout.
  now destruct (_ || _).
Qed.

Lemma resolve_outside_prototype_witness :
  resolve (Some (JStr "GPT-4-32k")) = Normal (Backend "meta/llama-3.1-405b-instruct") /\
  resolve (Some (JStr "gpt-4o")) = Normal (Backend "deepseek-ai/deepseek-v3.1") /\
  resolve (Some (JStr "mistral")) = Normal (Backend "meta/llama-3.1-8b-instruct").
Proof.
  split; [|split].
  - exact (resolve_outside_prototype "GPT-4-32k" eq_refl).
  - exact (resolve_outside_prototype "gpt-4o" eq_refl).
  - exact (resolve_outside_prototype "mistral" eq_refl).
Defined.

(** C8 at the identifier ["constructor"]: it is not in the table and holds
    neither ["gpt-4"] nor ["405b"], so the resolver of section 6 answers the
    small default model; [MODEL_MAPPING["constructor"]] is the inherited
    [Object] function, which is truthy, so line 65 skips the fallback and
    [nimModel] is that function. *)
Theorem inherited_member_is_selected :
  own "constructor" MODEL_MAPPING = None /\
  Spec.resolver "constructor" = "meta/llama-3.1-8b-instruct" /\
  resolve (Some (JStr "constructor")) = Normal (Inherited "constructor") /\
  exists request,
    chat_completions
      (Some (JObj [("model", JStr "constructor"); ("messages", JArr [])])) =
      Post request "json" /\
    model request = Inherited "constructor".
Proof.
  repeat split. eexists. split; reflexivity.
Qed.

(** C9.  Whenever a request is posted to the backend, its temperature is
    0.6 if the client's is absent, [null] or 0, and its [max_tokens] is 9024
    if the client's is absent, [null] or 0; a temperature of 0 is not kept. *)
Theorem defaults_applied (body : option json) (request : nimRequest) (responseType : string) :
  chat_completions body = Post request responseType ->
  let field k := chain body (fun b => get_prop b k) in
  (Spec.unset (field "temperature") = true -> temperature request = JNum "0.6") /\
  (Spec.unset (field "max_tokens") = true -> max_tokens request = JNum "9024") /\
  (field "temperature" = Some (JNum "0") -> temperature request <> JNum "0").
Proof.
  intros H. cbv zeta.
  destruct body as [b|]; [|discriminate H].
  assert (Hb : b <> JNull) by (intros ->; discriminate H).
  assert (Hpost : exists nimModel,
    request = {| model := nimModel;
                 messages := get_prop b "messages";
                 temperature := or_else (get_prop b "temperature") (JNum "0.6");
                 max_tokens := or_else (get_prop b "max_tokens") (JNum "9024");
                 extra_body := None;
                 stream := or_else (get_prop b "stream") (JBool true) |}).
  { unfold chat_completions in H.
    destruct (resolve (get_prop b "model")) as [m|e];
      destruct b; try discriminate H; try congruence;
      injection H as <- _; now exists m. }
  destruct Hpost as [m ->]. cbn [temperature max_tokens].
  assert (Hchain : forall k, chain (Some b) (fun v => get_prop v k) = get_prop b k)
    by (intros k; destruct b; try reflexivity; congruence).
  rewrite !Hchain.
  assert (Hunset : forall x d, Spec.unset x = true -> or_else x d = d).
  { intros [[| |r| | |]|] d Hx; try discriminate Hx; try reflexivity.
    cbn in *. now rewrite Hx. }
  split; [apply Hunset|]. split; [apply Hunset|].
  intros ->. discriminate.
Qed.

Lemma defaults_applied_witness :
  exists request,
    chat_completions
      (Some (JObj [("model", JStr "gpt-4"); ("temperature", JNum "0");
                   ("max_tokens", JNull); ("stream", JBool true)])) =
      Post request "stream" /\
    temperature request = JNum "0.6" /\ max_tokens request = JNum "9024".
Proof.
  eexists. split; [reflexivity|].
  pose proof (defaults_applied
                (Some (JObj [("model", JStr "gpt-4"); ("temperature", JNum "0");
                             ("max_tokens", JNull); ("stream", JBool true)]))
                _ "stream" eq_refl) as (Ht & Hm & _).
  split; [exact (Ht eq_refl) | exact (Hm eq_refl)].
Defined.

(** C10.  A request whose body has no [model] (or no body at all) throws at
    [model.toLowerCase()], before anything is posted to the backend:
    [MODEL_MAPPING[undefined]] is [undefined], and the [catch] answers 500. *)
Theorem missing_model_is_500 (body : option json) :
  chain body (fun b => get_prop b "model") = None ->
  MODEL_MAPPING_get "undefined" = None /\
  resolve None = Throw TypeError /\
  chat_completions body = Respond500 TypeError.
Proof.
  intros H. repeat split.
  destruct body as [b|]; [|reflexivity].
  destruct b; try reflexivity; cbn in H; unfold chat_completions;
    cbn [get_prop]; rewrite ?H; reflexivity.
Qed.

Lemma missing_model_is_500_witness :
  chat_completions
    (Some (JObj [("messages", JArr [JObj [("role", JStr "user"); ("content", JStr "hi")]]);
                 ("stream", JBool true)])) = Respond500 TypeError.
Proof.
  exact (proj2 (proj2 (missing_model_is_500
    (Some (JObj [("messages", JArr [JObj [("role", JStr "user"); ("content", JStr "hi")]]);
                 ("stream", JBool true)])) eq_refl))).
Defined.

(** ** The examples of section 8 *)

(** Deltas [{reasoning:"a"}], [{reasoning:"b"}], [{answer:"c"}] under the
    show policy: the open marker and ["a"], then ["b"], then the close marker
    and ["c"]; the merger ends closed. *)
Example show_example :
  Spec.merge_all
    [ {| Spec.reasoningText := Spec.Text "a"; Spec.answerText := Spec.Missing |};
      {| Spec.reasoningText := Spec.Text "b"; Spec.answerText := Spec.Missing |};
      {| Spec.reasoningText := Spec.Missing; Spec.answerText := Spec.Text "c" |} ]
    false =
  ([ Some (JStr (Stream.open_marker ++ "a")); Some (JStr "b");
     Some (JStr (Stream.close_marker ++ "c")) ], false).
Proof. reflexivity. Qed.

(** The serialized event [Sample.hi] cut after its first six characters
    and closed by two line feeds: the two chunks give one data frame (and
    one empty line), decoded into one delta whose answer is ["hi"] and
    written once. *)
Example fragments_example :
  let text := Sample.stringify Sample.hi in
  let chunks := ["data: " ++ substring 0 6 text; Js.drop 6 text ++ Js.LF ++ Js.LF] in
  Reassembler.feed "" chunks = (["data: " ++ text; ""], "") /\
  chain (Stream.first_delta Sample.hi) (fun delta => get_prop delta "content") =
    Some (JStr "hi") /\
  Stream.run Sample.parse Sample.stringify false Stream.initial chunks =
    ([Stream.frame text], Stream.initial).
Proof. cbv zeta. repeat split. Qed.

(* ================================================================== *)
(** * Further properties of the code *)

(** ** The reassembler (lines 97-100) *)

Lemma wire_app (l1 l2 : list string) :
  Reassembler.wire (l1 ++ l2) = Reassembler.wire l1 ++ Reassembler.wire l2.
Proof. unfold Reassembler.wire. now rewrite map_app, join_app. Qed.

Lemma wire_split (s : string) :
  Reassembler.wire (removelast (Js.split "010" s)) ++ last (Js.split "010" s) "" = s.
Proof.
  induction s as [|c r IH]; [reflexivity|].
  cbn [Js.split]. pose proof (split_not_nil "010" r) as Hne.
  destruct (Ascii.eqb c "010") eqn:Ec.
  - apply Ascii.eqb_eq in Ec. subst c.
    destruct (Js.split "010" r) as [|x l] eqn:E; [contradiction|].
    change (removelast ("" :: x :: l)) with ("" :: removelast (x :: l)).
    change (last ("" :: x :: l) "") with (last (x :: l) "").
    unfold Reassembler.wire, Js.join in *. cbn [map fold_right append Js.LF].
    now rewrite IH.
  - destruct (Js.split "010" r) as [|x [|y l]] eqn:E; [contradiction| |].
    + cbn in *. now rewrite IH.
    + change (removelast (String c x :: y :: l))
        with (String c x :: removelast (y :: l)).
      change (last (String c x :: y :: l) "") with (last (y :: l) "").
      change (removelast (x :: y :: l)) with (x :: removelast (y :: l)) in IH.
      change (last (x :: y :: l) "") with (last (y :: l) "") in IH.
      unfold Reassembler.wire, Js.join in *. cbn [map fold_right append] in *.
      rewrite !append_assoc in *. now rewrite IH.
Qed.

(** Nothing of the text is lost or invented by the reassembler, whatever
    the text: the lines handed over, each closed by a line feed again,
    followed by the buffer kept, are the old buffer followed by the chunks. *)
Theorem reassembly_conserves_text (buffer : string) (chunks : list string) :
  Reassembler.wire (fst (Reassembler.feed buffer chunks)) ++
  snd (Reassembler.feed buffer chunks) = buffer ++ Js.join chunks.
Proof.
  revert buffer. induction chunks as [|c cs IH]; intros buffer; cbn [Reassembler.feed].
  - cbn. now rewrite append_empty_r.
  - unfold Reassembler.on_chunk.
    specialize (IH (last (Js.split "010" (buffer ++ c)) "")).
    destruct (Reassembler.feed _ cs) as [more final]. cbn [fst snd] in *.
    rewrite wire_app, append_assoc, IH, <- append_assoc, wire_split.
    cbn [Js.join fold_right]. now rewrite append_assoc.
Qed.

Lemma split_segments_newline_free (s : string) :
  forallb Reassembler.newline_free (Js.split "010" s) = true.
Proof.
  induction s as [|c r IH]; [reflexivity|].
  cbn [Js.split]. destruct (Ascii.eqb c "010") eqn:Ec.
  - cbn. exact IH.
  - destruct (Js.split "010" r) as [|x l]; cbn in *; rewrite Ec; [reflexivity|].
    exact IH.
Qed.

Lemma forallb_removelast {A} (p : A -> bool) (l : list A) :
  forallb p l = true -> forallb p (removelast l) = true.
Proof.
  induction l as [|x [|y l] IH]; cbn; auto.
  intros H. apply andb_prop in H as [Hx H]. rewrite Hx. cbn. apply IH, H.
Qed.

Lemma feed_lines_newline_free (chunks : list string) (buffer : string) :
  forallb Reassembler.newline_free (fst (Reassembler.feed buffer chunks)) = true.
Proof.
  revert buffer. induction chunks as [|c cs IH]; intros buffer; [reflexivity|].
  cbn [Reassembler.feed]. unfold Reassembler.on_chunk.
  specialize (IH (last (Js.split "010" (buffer ++ c)) "")).
  destruct (Reassembler.feed _ cs) as [more final]. cbn [fst] in *.
  rewrite forallb_app, IH, andb_true_r.
  apply forallb_removelast, split_segments_newline_free.
Qed.

Lemma feed_buffer_newline_free (chunks : list string) (buffer : string) :
  Reassembler.newline_free buffer = true ->
  Reassembler.newline_free (snd (Reassembler.feed buffer chunks)) = true.
Proof.
  revert buffer. induction chunks as [|c cs IH]; intros buffer Hb; [exact Hb|].
  cbn [Reassembler.feed]. unfold Reassembler.on_chunk.
  specialize (IH (last (Js.split "010" (buffer ++ c)) "")
                 (last_split_newline_free "010" _ eq_refl)).
  now destruct (Reassembler.feed _ cs).
Qed.

(** The buffer never holds a complete line: after any chunks, from the
    empty buffer of line 94, [buffer] has no line feed, and no line handed
    to the callback has one. *)
Theorem buffer_holds_no_line
  (JSON_parse : string -> option json) (JSON_stringify : json -> string)
  (SHOW_REASONING : bool) (chunks : list string) :
  Reassembler.newline_free
    (Stream.buffer
       (snd (Stream.run JSON_parse JSON_stringify SHOW_REASONING Stream.initial chunks))) = true /\
  forallb Reassembler.newline_free (fst (Reassembler.feed "" chunks)) = true.
Proof.
  split; [|apply feed_lines_newline_free].
  rewrite run_feed. cbn [Stream.initial Stream.buffer Stream.reasoningStarted].
  pose proof (feed_buffer_newline_free chunks "" eq_refl) as H.
  destruct (Reassembler.feed "" chunks) as [lines final].
  now destruct (Stream.on_lines _ _ _ lines false).
Qed.

(** The listener depends on the chunks only through the concatenation of
    their separate decodings: two streams of buffers for which the texts
    [chunk.toString()] returns, chunk by chunk, add up to the same text make
    the listener write the same frames and end in the same state. *)
Theorem chunking_is_irrelevant
  (toString : Chunks.Buffer -> string)
  (JSON_parse : string -> option json) (JSON_stringify : json -> string)
  (SHOW_REASONING : bool) (chunks chunks' : list Chunks.Buffer) :
  Js.join (map toString chunks) = Js.join (map toString chunks') ->
  Chunks.run toString JSON_parse JSON_stringify SHOW_REASONING Stream.initial chunks =
  Chunks.run toString JSON_parse JSON_stringify SHOW_REASONING Stream.initial chunks'.
Proof.
  intros H. rewrite !chunks_run, !run_feed. cbn [Stream.initial Stream.buffer].
  now rewrite !feed_whole, H by reflexivity.
Qed.

Lemma chunking_is_irrelevant_witness :
  Chunks.run Sample.toString Sample.parse Sample.stringify true Stream.initial
    [Sample.bytes ("data: " ++ Sample.stringify Sample.thinking ++ Js.LF ++ "da");
     Sample.bytes ("ta: [DONE]" ++ Js.LF)] =
  Chunks.run Sample.toString Sample.parse Sample.stringify true Stream.initial
    [Sample.bytes "da"; Sample.bytes ("ta: " ++ Sample.stringify Sample.thinking);
     Sample.bytes (Js.LF ++ "data: [DONE]" ++ Js.LF)].
Proof.
  apply (chunking_is_irrelevant Sample.toString Sample.parse Sample.stringify true
    [Sample.bytes ("data: " ++ Sample.stringify Sample.thinking ++ Js.LF ++ "da");
     Sample.bytes ("ta: [DONE]" ++ Js.LF)]
    [Sample.bytes "da"; Sample.bytes ("ta: " ++ Sample.stringify Sample.thinking);
     Sample.bytes (Js.LF ++ "data: [DONE]" ++ Js.LF)]).
  vm_compute. reflexivity.
Defined.

(** When the texts [chunk.toString()] returns for the chunks add up to
    complete frames (none holds a line feed) followed by unterminated text,
    the reassembler hands over exactly the frames, in order, whatever the
    number and the sizes of the chunks (empty ones included); the listener
    handles those lines and no others; the trailing text is left in
    [buffer], which the end of the stream discards. *)
Theorem frames_survive_chunking
  (toString : Chunks.Buffer -> string)
  (JSON_parse : string -> option json) (JSON_stringify : json -> string)
  (SHOW_REASONING : bool)
  (frames : list string) (rest : string) (chunks : list Chunks.Buffer) :
  forallb Reassembler.newline_free frames = true ->
  Reassembler.newline_free rest = true ->
  Js.join (map toString chunks) = Reassembler.wire frames ++ rest ->
  Reassembler.feed "" (map toString chunks) = (frames, rest) /\
  (let handled := Stream.on_lines JSON_parse JSON_stringify SHOW_REASONING frames false in
   Chunks.run toString JSON_parse JSON_stringify SHOW_REASONING Stream.initial chunks =
     (fst handled, {| Stream.buffer := rest; Stream.reasoningStarted := snd handled |}) /\
   Chunks.respond toString JSON_parse JSON_stringify SHOW_REASONING chunks =
     (map Stream.Write (fst handled) ++ [Stream.EndResponse])%list).
Proof.
  intros Hf Hr Hjoin.
  split; [now apply feed_frames|].
  pose proof (run_frames JSON_parse JSON_stringify SHOW_REASONING
                frames rest _ Hf Hr Hjoin) as Hrun.
  cbv zeta. rewrite <- chunks_run in Hrun. split; [exact Hrun|].
  unfold Chunks.respond. now rewrite Hrun.
Qed.

Lemma frames_survive_chunking_witness :
  Chunks.respond Sample.toString Sample.parse Sample.stringify false
    [Sample.bytes "da"; Sample.bytes ("ta: [DONE]" ++ Js.LF);
     Sample.bytes (Js.LF ++ " da"); Sample.bytes "";
     Sample.bytes ("ta: x" ++ Js.LF ++ "dat"); Sample.bytes "a"] =
    [Stream.Write Spec.terminal_frame; Stream.EndResponse].
Proof.
  refine (proj2 (proj2 (frames_survive_chunking Sample.toString Sample.parse
            Sample.stringify false ["data: [DONE]"; ""; " data: x"] "data"
            [Sample.bytes "da"; Sample.bytes ("ta: [DONE]" ++ Js.LF);
             Sample.bytes (Js.LF ++ " da"); Sample.bytes "";
             Sample.bytes ("ta: x" ++ Js.LF ++ "dat"); Sample.bytes "a"]
            eq_refl eq_refl _))).
  vm_compute. reflexivity.
Defined.

(** A chunk that completes no line is only stored: while the buffer and the
    chunk together hold no line feed, nothing is written and
    [reasoningStarted] is untouched. *)
Theorem partial_line_is_held
  (JSON_parse : string -> option json) (JSON_stringify : json -> string)
  (SHOW_REASONING : bool) (st : Stream.state) (chunk : string) :
  Reassembler.newline_free (Stream.buffer st ++ chunk) = true ->
  Stream.on_data JSON_parse JSON_stringify SHOW_REASONING st chunk =
    ([], {| Stream.buffer := Stream.buffer st ++ chunk;
            Stream.reasoningStarted := Stream.reasoningStarted st |}).
Proof.
  intros H. unfold Stream.on_data, Reassembler.on_chunk.
  now rewrite (split_newline_free _ H).
Qed.

Lemma partial_line_is_held_witness :
  Stream.on_data Sample.parse Sample.stringify true
    {| Stream.buffer := "data: [DO"; Stream.reasoningStarted := true |} "NE]" =
    ([], {| Stream.buffer := "data: [DONE]"; Stream.reasoningStarted := true |}).
Proof.
  exact (partial_line_is_held Sample.parse Sample.stringify true
           {| Stream.buffer := "data: [DO"; Stream.reasoningStarted := true |} "NE]"
           eq_refl).
Defined.

(** ** Lines and frames (lines 102-146) *)

Section Frames.

Variable JSON_parse : string -> option json.
Variable JSON_stringify : json -> string.
Variable SHOW_REASONING : bool.

Local Abbreviation on_event := (Stream.on_event JSON_stringify SHOW_REASONING).
Local Abbreviation on_line := (Stream.on_line JSON_parse JSON_stringify SHOW_REASONING).
Local Abbreviation on_lines := (Stream.on_lines JSON_parse JSON_stringify SHOW_REASONING).

Lemma on_event_writes data started :
  fst (on_event data started) = [] \/
  exists payload, fst (on_event data started) = [Stream.frame payload].
Proof.
  unfold Stream.on_event.
  destruct (Stream.present _); [|now left].
  destruct SHOW_REASONING.
  - destruct (Stream.combine _ _ _) as [[c|] s]; [right; eexists; reflexivity | now left].
  - right. eexists. reflexivity.
Qed.

Lemma on_line_writes line started :
  fst (on_line line started) = [] \/
  exists payload, fst (on_line line started) = [Stream.frame payload].
Proof.
  unfold Stream.on_line.
  destruct (_ || _); [now left|].
  destruct (_ =? "[DONE]"); [right; exists "[DONE]"; reflexivity|].
  destruct (JSON_parse _); [apply on_event_writes | now left].
Qed.

Lemma on_lines_writes lines started :
  Forall Lines.is_frame (fst (on_lines lines started)) /\
  List.length (fst (on_lines lines started)) <= List.length lines.
Proof.
  revert started. induction lines as [|l ls IH]; intros started; cbn [Stream.on_lines].
  - split; [constructor | reflexivity].
  - pose proof (on_line_writes l started) as Hl.
    destruct (on_line l started) as [w s]. cbn [fst] in Hl.
    specialize (IH s). destruct (on_lines ls s) as [more final]. cbn [fst] in *.
    destruct IH as [IH1 IH2].
    destruct Hl as [-> | [p ->]]; cbn [app List.length].
    + split; [exact IH1 | lia].
    + split; [constructor; [now exists p | exact IH1] | lia].
Qed.

End Frames.

(** Whatever the backend sends, all the listener ever writes are frames
    (["data: "], a payload, two line feeds), at most one for each complete
    line received. *)
Theorem writes_are_frames
  (JSON_parse : string -> option json) (JSON_stringify : json -> string)
  (SHOW_REASONING : bool) (chunks : list string) :
  let written :=
    fst (Stream.run JSON_parse JSON_stringify SHOW_REASONING Stream.initial chunks) in
  Forall Lines.is_frame written /\
  List.length written <= List.length (fst (Reassembler.feed "" chunks)).
Proof.
  cbv zeta. rewrite run_feed. cbn [Stream.initial Stream.buffer Stream.reasoningStarted].
  destruct (Reassembler.feed "" chunks) as [lines final].
  pose proof (on_lines_writes JSON_parse JSON_stringify SHOW_REASONING lines false) as H.
  destruct (Stream.on_lines _ _ _ lines false) as [w s]. exact H.
Qed.

(** *** Trimming *)

Lemma trimStart_blank (w s : string) :
  Lines.blank w = true -> Js.trimStart (w ++ s) = Js.trimStart s.
Proof.
  induction w as [|c w IH]; [reflexivity|]. cbn. intros H.
  apply andb_prop in H as [Hc Hw]. rewrite Hc. apply IH, Hw.
Qed.

Lemma trimEnd_blank (s : string) : Js.trimEnd s = "" <-> Lines.blank s = true.
Proof.
  induction s as [|c r IH]; [now split|]. cbn.
  destruct (Js.trimEnd r) as [|x r'] eqn:E.
  - destruct (Js.is_white c); cbn; [|split; discriminate].
    split; intros _; [now apply IH | reflexivity].
  - split; [discriminate|]. intros H. apply andb_prop in H as [_ H].
    apply IH in H. discriminate.
Qed.

Lemma trimStart_blank_iff (s : string) : Js.trimStart s = "" <-> Lines.blank s = true.
Proof.
  induction s as [|c r IH]; [now split|]. cbn.
  destruct (Js.is_white c); cbn; [exact IH | split; discriminate].
Qed.

Lemma trimEnd_app_blank (s w : string) :
  Js.trimEnd w = "" -> Js.trimEnd (s ++ w) = Js.trimEnd s.
Proof.
  intros Hw. induction s as [|c r IH]; [exact Hw|].
  cbn. now rewrite IH.
Qed.

Lemma trimEnd_app_text (s t : string) :
  Js.trimEnd t <> "" -> Js.trimEnd (s ++ t) = s ++ Js.trimEnd t.
Proof.
  intros Ht. induction s as [|c r IH]; [reflexivity|].
  cbn. rewrite IH.
  destruct (r ++ Js.trimEnd t) eqn:E; [|reflexivity].
  destruct r; [contradiction | discriminate E].
Qed.

Lemma trimEnd_idempotent (s : string) : Js.trimEnd (Js.trimEnd s) = Js.trimEnd s.
Proof.
  induction s as [|c r IH]; [reflexivity|]. cbn.
  destruct (Js.trimEnd r) as [|x r'] eqn:E.
  - destruct (Js.is_white c) eqn:Ec; cbn; [reflexivity | now rewrite Ec].
  - cbn [Js.trimEnd]. fold Js.trimEnd. 
    change (match Js.trimEnd r' with
            | "" => if Js.is_white x then "" else String x ""
            | String a s0 => String x (String a s0)
            end) with (Js.trimEnd (String x r')).
    now rewrite IH.
Qed.

Lemma trim_commutes (s : string) :
  Js.trimStart (Js.trimEnd s) = Js.trimEnd (Js.trimStart s).
Proof.
  induction s as [|c r IH]; [reflexivity|].
  cbn [Js.trimStart]. destruct (Js.is_white c) eqn:Ec.
  - rewrite <- IH. cbn [Js.trimEnd].
    destruct (Js.trimEnd r) as [|x r'] eqn:E; [now rewrite Ec|].
    cbn [Js.trimStart]. now rewrite Ec.
  - cbn [Js.trimEnd].
    destruct (Js.trimEnd r) as [|x r'] eqn:E; rewrite ?Ec; cbn [Js.trimStart];
      now rewrite Ec.
Qed.

Lemma trim_blank (s : string) : Js.trim s = "" <-> Lines.blank s = true.
Proof.
  unfold Js.trim. rewrite <- trim_commutes, trimStart_blank_iff.
  rewrite <- (trimEnd_blank (Js.trimEnd s)), trimEnd_idempotent.
  apply trimEnd_blank.
Qed.

Lemma trim_surrounded (w1 s w2 : string) :
  Lines.blank w1 = true -> Lines.blank w2 = true ->
  Js.trim (w1 ++ s ++ w2) = Js.trim s.
Proof.
  intros H1 H2. unfold Js.trim.
  rewrite trimStart_blank by assumption.
  rewrite <- !trim_commutes.
  now rewrite trimEnd_app_blank by (now apply trimEnd_blank).
Qed.

Lemma prefix_app (p s : string) : prefix p (p ++ s) = true.
Proof.
  induction p as [|c p IH]; cbn; [now destruct s|].
  destruct (ascii_dec c c); [exact IH | congruence].
Qed.

Lemma drop_app (p s : string) : Js.drop (String.length p) (p ++ s) = s.
Proof. induction p as [|c p IH]; cbn; [now destruct s | exact IH]. Qed.

Lemma replace_leading (pat rep s : string) :
  Js.replace pat rep (pat ++ s) = rep ++ s.
Proof.
  pose proof (prefix_app pat s) as H.
  destruct (pat ++ s) eqn:E; cbn [Js.replace]; rewrite H, <- E, drop_app; reflexivity.
Qed.

(** White space around a line does not count, the carriage return of a
    CRLF line ending included: the callback does to the line what it does to
    the line without it. *)
Theorem surrounding_space_is_ignored
  (JSON_parse : string -> option json) (JSON_stringify : json -> string)
  (SHOW_REASONING : bool) (before line after : string) (started : bool) :
  Lines.blank before = true -> Lines.blank after = true ->
  Stream.on_line JSON_parse JSON_stringify SHOW_REASONING (before ++ line ++ after) started =
  Stream.on_line JSON_parse JSON_stringify SHOW_REASONING line started.
Proof.
  intros H1 H2. unfold Stream.on_line.
  now rewrite (trim_surrounded _ _ _ H1 H2).
Qed.

Lemma surrounding_space_is_ignored_witness :
  Stream.on_line Sample.parse Sample.stringify false
    ("  " ++ "data: [DONE]" ++ String "013" "") false =
  Stream.on_line Sample.parse Sample.stringify false "data: [DONE]" false.
Proof.
  exact (surrounding_space_is_ignored Sample.parse Sample.stringify false
           "  " "data: [DONE]" (String "013" "") false eq_refl eq_refl).
Defined.

(** What follows ["data: "] is decoded as it is, once trimmed: only the
    leading marker is cut, so a payload that itself holds ["data: "] is not
    damaged; and a line that is the marker alone, or the marker and white
    space, is dropped. *)
Theorem payload_is_what_follows_the_marker
  (JSON_parse : string -> option json) (JSON_stringify : json -> string)
  (SHOW_REASONING : bool) (text : string) (started : bool) :
  Stream.on_line JSON_parse JSON_stringify SHOW_REASONING ("data: " ++ text) started =
  if Js.trim text =? "" then ([], started)
  else if Js.trim text =? "[DONE]" then (["data: [DONE]" ++ Js.LF ++ Js.LF], started)
  else match JSON_parse (Js.trim text) with
       | None => ([], started)
       | Some data => Stream.on_event JSON_stringify SHOW_REASONING data started
       end.
Proof.
  unfold Stream.on_line.
  assert (Hstart : Js.trim ("data: " ++ text) = Js.trimEnd ("data: " ++ text))
    by reflexivity.
  rewrite Hstart.
  destruct (String.eqb_spec (Js.trimEnd text) "") as [E|E].
  - rewrite trimEnd_app_blank by exact E.
    assert (Ht : Js.trim text = "") by (apply trim_blank, trimEnd_blank, E).
    rewrite Ht. reflexivity.
  - rewrite trimEnd_app_text by exact E.
    assert (Hp : Js.trim (Js.replace "data: " "" ("data: " ++ Js.trimEnd text)) = Js.trim text).
    { rewrite replace_leading. cbn [append].
      unfold Js.trim. now rewrite <- !trim_commutes, trimEnd_idempotent. }
    rewrite Hp.
    assert (Hne : (Js.trim text =? "") = false).
    { apply String.eqb_neq. intros Ht. apply trim_blank, trimEnd_blank in Ht.
      contradiction. }
    rewrite Hne. unfold Js.startsWith. rewrite prefix_app. reflexivity.
Qed.

(** ** Rewriting the event (lines 137-138 and 142-143) *)

Lemma lookup_modify_other (k k' : string) (f : json -> json) ms :
  k <> k' -> lookup k (modify k' f ms) = lookup k ms.
Proof.
  intros Hne. induction ms as [|[k0 v] ms IH]; cbn; [reflexivity|].
  destruct (k0 =? k') eqn:E; cbn.
  - apply String.eqb_eq in E. subst k0.
    destruct (k' =? k) eqn:E'; [apply String.eqb_eq in E'; congruence | reflexivity].
  - now rewrite IH.
Qed.

Lemma lookup_assign_other (k k' : string) (x : json) ms :
  k <> k' -> lookup k (assign k' x ms) = lookup k ms.
Proof.
  intros Hne. induction ms as [|[k0 v] ms IH]; cbn.
  - destruct (k' =? k) eqn:E; [apply String.eqb_eq in E; congruence | reflexivity].
  - destruct (k0 =? k') eqn:E; cbn.
    + apply String.eqb_eq in E. subst k0.
      destruct (k' =? k) eqn:E'; [apply String.eqb_eq in E'; congruence | reflexivity].
    + now rewrite IH.
Qed.

Lemma modify_fixed (k : string) (f : json -> json) ms :
  (forall v, lookup k ms = Some v -> f v = v) -> modify k f ms = ms.
Proof.
  induction ms as [|[k0 v] ms IH]; cbn; [reflexivity|]. intros H.
  destruct (k0 =? k) eqn:E.
  - now rewrite (H v eq_refl).
  - now rewrite IH.
Qed.

Lemma modify_twice (k : string) (f : json -> json) ms :
  (forall v, f (f v) = f v) -> modify k f (modify k f ms) = modify k f ms.
Proof.
  intros Hf. induction ms as [|[k0 v] ms IH]; cbn; [reflexivity|].
  destruct (k0 =? k) eqn:E; cbn; rewrite E; [now rewrite Hf | now rewrite IH].
Qed.

Lemma at_prop_twice (k : string) (f : json -> json) (v : json) :
  (forall x, f (f x) = f x) -> at_prop k f (at_prop k f v) = at_prop k f v.
Proof. intros Hf. destruct v; cbn; try reflexivity. now rewrite modify_twice. Qed.

Lemma at_first_twice (f : json -> json) (v : json) :
  (forall x, f (f x) = f x) -> at_first f (at_first f v) = at_first f v.
Proof.
  intros Hf. destruct v as [| | | |[|x l]|ms]; cbn; try reflexivity.
  - now rewrite Hf.
  - now rewrite modify_twice.
Qed.

Lemma assign_present (k : string) (x : json) ms :
  lookup k ms = Some x -> assign k x ms = ms.
Proof.
  induction ms as [|[k0 v] ms IH]; cbn; [discriminate|].
  destruct (k0 =? k) eqn:E; [now intros [= ->] | intros H; now rewrite IH].
Qed.

Lemma remove_twice (k : string) ms : remove k (remove k ms) = remove k ms.
Proof.
  induction ms as [|[k0 v] ms IH]; cbn; [reflexivity|].
  destruct (k0 =? k) eqn:E; cbn; [exact IH | now rewrite E, IH].
Qed.

Lemma delta_rewrite_twice (text delta : json) :
  delete_prop "reasoning_content"
    (set_prop "content" text
       (delete_prop "reasoning_content" (set_prop "content" text delta))) =
  delete_prop "reasoning_content" (set_prop "content" text delta).
Proof.
  destruct delta as [| | | | |ms]; try reflexivity. cbn. f_equal.
  rewrite assign_present.
  - apply remove_twice.
  - rewrite lookup_remove_other by discriminate. apply lookup_assign.
Qed.

(** Writing the same text twice is writing it once. *)
Lemma rewrite_delta_twice (text data : json) :
  Stream.rewrite_delta text (Stream.rewrite_delta text data) =
  Stream.rewrite_delta text data.
Proof.
  unfold Stream.rewrite_delta.
  apply at_prop_twice. intros c. apply at_first_twice. intros d.
  apply at_prop_twice. intros x. apply delta_rewrite_twice.
Qed.

(** The rewrite touches the delta's [content] and [reasoning_content] and
    nothing else: the other members of the event ([id], [model], [usage]...),
    the choices after the first, the other members of the first choice
    ([index], [finish_reason]...) and the other members of its delta
    ([role], [tool_calls]...) are what they were. *)
Theorem rewrite_touches_two_fields_only
  (text data : json) (others : list json) (choice : list (string * json))
  (delta : list (string * json)) :
  get_prop data "choices" = Some (JArr (JObj choice :: others)) ->
  lookup "delta" choice = Some (JObj delta) ->
  (forall k, k <> "choices" ->
     get_prop (Stream.rewrite_delta text data) k = get_prop data k) /\
  exists choice' delta',
    get_prop (Stream.rewrite_delta text data) "choices" =
      Some (JArr (JObj choice' :: others)) /\
    (forall k, k <> "delta" -> lookup k choice' = lookup k choice) /\
    lookup "delta" choice' = Some (JObj delta') /\
    (forall k, k <> "content" -> k <> "reasoning_content" ->
       lookup k delta' = lookup k delta) /\
    lookup "content" delta' = Some text /\
    lookup "reasoning_content" delta' = None.
Proof.
  intros Hchoices Hdelta.
  destruct data as [| | | | |ms]; try discriminate Hchoices.
  cbn [get_prop] in Hchoices. unfold Stream.rewrite_delta. cbn [at_prop get_prop].
  split.
  - intros k Hk. now apply lookup_modify_other.
  - rewrite (lookup_modify _ _ _ _ Hchoices). cbn [at_first at_prop].
    eexists. eexists. split; [reflexivity|].
    split; [intros k Hk; now apply lookup_modify_other|].
    split; [rewrite (lookup_modify _ _ _ _ Hdelta); reflexivity|].
    split; [|split].
    + intros k Hc Hr. rewrite lookup_remove_other by assumption.
      now apply lookup_assign_other.
    + rewrite lookup_remove_other by discriminate. apply lookup_assign.
    + apply lookup_remove.
Qed.

Lemma rewrite_touches_two_fields_only_witness :
  get_prop (Stream.rewrite_delta (JStr "x") Sample.opening) "id" = Some (JStr "cmpl-1").
Proof.
  exact (proj1 (rewrite_touches_two_fields_only (JStr "x") Sample.opening []
                  [("index", JNum "0");
                   ("delta", JObj [("role", JStr "assistant"); ("content", JStr "");
                                   ("reasoning_content", JNull)])]
                  [("role", JStr "assistant"); ("content", JStr "");
                   ("reasoning_content", JNull)]
                  eq_refl eq_refl) "id" ltac:(discriminate)).
Defined.

(** A delta that is truthy without being an object (a string, a number,
    [true], an array) is never an error: it has no [content] and no
    [reasoning_content], the assignments of lines 137-143 leave it alone, and
    the event is written as it came, under either policy, with
    [reasoningStarted] untouched. *)
Theorem odd_delta_goes_through
  (JSON_stringify : json -> string) (SHOW_REASONING : bool)
  (data delta : json) (started : bool) :
  Stream.present (Stream.first_delta data) = Some delta ->
  (forall members, delta <> JObj members) ->
  Stream.on_event JSON_stringify SHOW_REASONING data started =
    ([Stream.frame (JSON_stringify data)], started).
Proof.
  intros Hpresent Hodd. unfold Stream.on_event. rewrite Hpresent.
  assert (Hnone : forall k, get_prop delta k = None).
  { intros k. destruct delta; try reflexivity. exfalso. eapply Hodd. reflexivity. }
  rewrite !Hnone.
  destruct SHOW_REASONING; [now destruct started|].
  cbn [or_else].
  enough (Hsame : Stream.rewrite_delta (JStr "") data = data) by now rewrite Hsame.
  assert (Hfirst : Stream.first_delta data = Some delta).
  { unfold Stream.present in Hpresent.
    destruct (Stream.first_delta data) as [d|]; [|discriminate].
    destruct (truthy d); congruence. }
  assert (Hh : delete_prop "reasoning_content" (set_prop "content" (JStr "") delta) = delta).
  { destruct delta; try reflexivity. exfalso. eapply Hodd. reflexivity. }
  clear Hpresent Hnone. revert Hfirst.
  unfold Stream.first_delta, Stream.rewrite_delta.
  destruct data as [| | | | |ms]; try discriminate. cbn [chain get_prop at_prop].
  destruct (lookup "choices" ms) as [ch|] eqn:Ech; [|discriminate].
  intros Hpath. f_equal. apply modify_fixed. intros v Hv.
  rewrite Ech in Hv. injection Hv as <-.
  destruct ch as [| | |s|items|cs]; try reflexivity; cbn [chain get_first at_first] in *.
  - destruct items as [|c0 items]; [reflexivity|]. cbn [hd_error chain] in Hpath.
    destruct c0 as [| | | | |c0]; try reflexivity. cbn [chain get_prop at_prop] in *.
    do 3 f_equal. apply modify_fixed. intros v Hv. rewrite Hpath in Hv.
    injection Hv as <-. exact Hh.
  - f_equal. apply modify_fixed. intros v Hv.
    destruct (lookup "0" cs) as [c0|]; [|discriminate]. injection Hv as <-.
    destruct c0 as [| | | | |c0]; try reflexivity. cbn [chain get_prop at_prop] in *.
    f_equal. apply modify_fixed. intros v Hv. rewrite Hpath in Hv.
    injection Hv as <-. exact Hh.
Qed.

Lemma odd_delta_goes_through_witness :
  Stream.on_event Sample.stringify false (Sample.event (JStr "x")) true =
    ([Stream.frame (Sample.stringify (Sample.event (JStr "x")))], true).
Proof.
  refine (odd_delta_goes_through Sample.stringify false (Sample.event (JStr "x"))
            (JStr "x") true eq_refl _).
  intros members. discriminate.
Defined.

(** Under the hide policy the proxy's own output is a fixed point: an event
    it has rewritten is written again exactly as it is. *)
Theorem hide_is_idempotent
  (JSON_stringify : json -> string) (data : json) (ms : list (string * json))
  (answer : Spec.text_field) (started : bool) :
  Stream.first_delta data = Some (JObj ms) ->
  lookup "content" ms = Spec.field_value answer ->
  exists data',
    Stream.on_event JSON_stringify false data started =
      ([Stream.frame (JSON_stringify data')], started) /\
    Stream.on_event JSON_stringify false data' started =
      ([Stream.frame (JSON_stringify data')], started).
Proof.
  intros Hdelta Hcontent.
  set (text := JStr (Spec.text_or_empty (Spec.carried answer))).
  assert (Hor : or_else (Spec.field_value answer) (JStr "") = text)
    by (now destruct answer as [| |[|c s]]).
  assert (Hor' : or_else (Some text) (JStr "") = text).
  { subst text. cbn. now destruct (Spec.text_or_empty _). }
  exists (Stream.rewrite_delta text data). split.
  - unfold Stream.on_event. rewrite Hdelta. cbn [Stream.present truthy get_prop].
    now rewrite Hcontent, Hor.
  - destruct (rewritten_delta_fields text ms) as (ms' & E & Hc & _).
    unfold Stream.on_event.
    rewrite (first_delta_rewrite _ _ _ Hdelta), E.
    cbn [Stream.present truthy get_prop].
    now rewrite Hc, Hor', rewrite_delta_twice.
Qed.

Lemma hide_is_idempotent_witness :
  exists data',
    Stream.on_event Sample.stringify false Sample.thinking false =
      ([Stream.frame (Sample.stringify data')], false) /\
    Stream.on_event Sample.stringify false data' false =
      ([Stream.frame (Sample.stringify data')], false).
Proof.
  exact (hide_is_idempotent Sample.stringify Sample.thinking
           [("reasoning_content", JStr "hmm"); ("content", JNull)]
           Spec.Null false eq_refl eq_refl).
Defined.

(** ** The silent catch (lines 112-149) *)

(** A concatenation that throws between the two assignments of
    [reasoningStarted] leaves it set with nothing written.  Under the show
    policy, from the closed state, a delta with reasoning text whose
    [content] is an object with an own [toString] member (which no
    conversion to a string survives) writes nothing, the exception being
    swallowed at line 147, and [reasoningStarted] stays [true] although no
    open marker went out. *)
Theorem swallowed_error_leaves_block_open
  (JSON_stringify : json -> string) (data : json)
  (delta content : list (string * json)) (c : ascii) (reasoning : string) :
  Stream.first_delta data = Some (JObj delta) ->
  lookup "reasoning_content" delta = Some (JStr (String c reasoning)) ->
  lookup "content" delta = Some (JObj content) ->
  has_key "toString" content = true ->
  Stream.on_event JSON_stringify true data false = ([], true).
Proof.
  intros Hdelta Hr Hc Hkey. unfold Stream.on_event.
  rewrite Hdelta. cbn [Stream.present truthy get_prop]. rewrite Hr, Hc.
  unfold Stream.combine, plus. cbn [Stream.present truthy negb String.eqb to_str option_map].
  now rewrite Hkey.
Qed.

Lemma swallowed_error_leaves_block_open_witness :
  Stream.on_event Sample.stringify true
    (Sample.event (JObj [("reasoning_content", JStr "hmm");
                         ("content", JObj [("toString", JNum "1")])])) false =
    ([], true).
Proof.
  exact (swallowed_error_leaves_block_open Sample.stringify
           (Sample.event (JObj [("reasoning_content", JStr "hmm");
                                ("content", JObj [("toString", JNum "1")])]))
           [("reasoning_content", JStr "hmm"); ("content", JObj [("toString", JNum "1")])]
           [("toString", JNum "1")] "h" "mm" eq_refl eq_refl eq_refl eq_refl).
Defined.

(** ** The request posted (lines 62-87) *)

Lemma posted_request (body : option json) (request : nimRequest) (responseType : string) :
  chat_completions body = Post request responseType ->
  exists b nimModel,
    body = Some b /\
    (forall k, chain body (fun v => get_prop v k) = get_prop b k) /\
    resolve (get_prop b "model") = Normal nimModel /\
    request = {| model := nimModel;
                 messages := get_prop b "messages";
                 temperature := or_else (get_prop b "temperature") (JNum "0.6");
                 max_tokens := or_else (get_prop b "max_tokens") (JNum "9024");
                 extra_body := None;
                 stream := or_else (get_prop b "stream") (JBool true) |} /\
    responseType = (if truthy_opt (get_prop b "stream") then "stream" else "json").
Proof.
  intros H. destruct body as [b|]; [|discriminate H].
  assert (Hb : b <> JNull) by (intros ->; discriminate H).
  unfold chat_completions in H.
  destruct (resolve (get_prop b "model")) as [m|e] eqn:E.
  - exists b, m. split; [reflexivity|].
    split; [intros k; destruct b; try reflexivity; congruence|].
    split; [exact E|].
    destruct b; try congruence; injection H as <- <-; split; reflexivity.
  - destruct b; discriminate H.
Qed.

(** The backend is always asked to stream: [stream || true] is truthy
    whatever the client sent, [stream: false] included, while the response
    type asked of the HTTP client follows the client's flag. *)
Theorem backend_is_always_asked_to_stream
  (body : option json) (request : nimRequest) (responseType : string) :
  chat_completions body = Post request responseType ->
  let client := chain body (fun b => get_prop b "stream") in
  truthy (stream request) = true /\
  (truthy_opt client = false -> stream request = JBool true) /\
  responseType = (if truthy_opt client then "stream" else "json").
Proof.
  intros H. cbv zeta.
  destruct (posted_request _ _ _ H) as (b & m & -> & Hchain & _ & -> & ->).
  rewrite Hchain. cbn [stream].
  split; [|split; [|reflexivity]].
  - destruct (get_prop b "stream") as [v|]; [|reflexivity].
    cbn. destruct (truthy v) eqn:E; [exact E | reflexivity].
  - destruct (get_prop b "stream") as [v|]; [|reflexivity].
    cbn. now intros ->.
Qed.

Lemma backend_is_always_asked_to_stream_witness :
  exists request,
    chat_completions
      (Some (JObj [("model", JStr "gpt-4"); ("stream", JBool false)])) =
      Post request "json" /\
    stream request = JBool true.
Proof.
  eexists. split; [reflexivity|].
  exact (proj1 (proj2 (backend_is_always_asked_to_stream
           (Some (JObj [("model", JStr "gpt-4"); ("stream", JBool false)]))
           _ "json" eq_refl)) eq_refl).
Defined.

(** What the client set is forwarded as it is: [messages] always, a truthy
    [temperature] and a truthy [max_tokens] unchanged; [extra_body] is
    never sent. *)
Theorem client_settings_are_forwarded
  (body : option json) (request : nimRequest) (responseType : string) :
  chat_completions body = Post request responseType ->
  let field k := chain body (fun b => get_prop b k) in
  messages request = field "messages" /\
  (truthy_opt (field "temperature") = true ->
     Some (temperature request) = field "temperature") /\
  (truthy_opt (field "max_tokens") = true ->
     Some (max_tokens request) = field "max_tokens") /\
  extra_body request = None.
Proof.
  intros H. cbv zeta.
  destruct (posted_request _ _ _ H) as (b & m & -> & Hchain & _ & -> & _).
  rewrite !Hchain. cbn [messages temperature max_tokens extra_body].
  assert (Hkeep : forall x d, truthy_opt x = true -> Some (or_else x d) = x).
  { intros [v|] d Hx; [|discriminate Hx]. cbn in *. now rewrite Hx. }
  split; [reflexivity | split; [apply Hkeep | split; [apply Hkeep | reflexivity]]].
Qed.

Lemma client_settings_are_forwarded_witness :
  exists request,
    chat_completions
      (Some (JObj [("model", JStr "gpt-4o"); ("messages", JArr []);
                   ("temperature", JNum "1.5")])) = Post request "json" /\
    Some (temperature request) = Some (JNum "1.5").
Proof.
  eexists. split; [reflexivity|].
  exact (proj1 (proj2 (client_settings_are_forwarded
           (Some (JObj [("model", JStr "gpt-4o"); ("messages", JArr []);
                        ("temperature", JNum "1.5")]))
           _ "json" eq_refl)) eq_refl).
Defined.

(** A model that is not a string never gets a fallback: either its
    conversion to a property key names a member of [MODEL_MAPPING] (own or
    inherited), which is selected, or the handler answers 500. *)
Theorem no_fallback_without_a_string (model : json) :
  (forall s, model <> JStr s) ->
  resolve (Some model) = Throw TypeError \/
  exists key member,
    to_str model = Some key /\ MODEL_MAPPING_get key = Some member /\
    resolve (Some model) = Normal member.
Proof.
  intros Hodd. unfold resolve. cbn [property_key].
  destruct (to_str model) as [key|]; [|now left].
  destruct (MODEL_MAPPING_get key) as [member|] eqn:E.
  - right. exists key, member. auto.
  - left. destruct model; try reflexivity. exfalso. eapply Hodd. reflexivity.
Qed.

Lemma no_fallback_without_a_string_witness :
  (resolve (Some (JNum "4")) = Throw TypeError \/
   exists key member,
     to_str (JNum "4") = Some key /\ MODEL_MAPPING_get key = Some member /\
     resolve (Some (JNum "4")) = Normal member) /\
  resolve (Some (JArr [JStr "gpt-4"])) =
    Normal (Backend "qwen/qwen3-coder-480b-a35b-instruct").
Proof.
  split.
  - apply no_fallback_without_a_string. intros s. discriminate.
  - reflexivity.
Defined.

(** ** GET /v1/models (lines 45-57) *)

Lemma own_key_is_posted (id name : string) (members : list (string * json)) :
  own id MODEL_MAPPING = Some name ->
  lookup "model" members = Some (JStr id) ->
  exists request responseType,
    chat_completions (Some (JObj members)) = Post request responseType /\
    model request = Backend name.
Proof.
  intros Hown Hmodel. unfold chat_completions. cbn [get_prop]. rewrite Hmodel.
  unfold resolve, MODEL_MAPPING_get. cbn [property_key to_str]. rewrite Hown.
  eexists. eexists. split; reflexivity.
Qed.

(** The listing and the resolver agree: whatever the clock says, the
    endpoint lists one entry for each key of [MODEL_MAPPING], in order, and
    a chat-completions request whose [model] is a listed id is posted with
    the model the table maps it to, never a fallback and never a 500. *)
Theorem listed_models_resolve (clock : nat -> string) :
  exists items,
    get_prop (Models.list_models clock) "data" = Some (JArr items) /\
    map (fun item => get_prop item "id") items =
      map (fun entry => Some (JStr (fst entry))) MODEL_MAPPING /\
    forall item, In item items ->
      exists id name,
        get_prop item "id" = Some (JStr id) /\
        own id MODEL_MAPPING = Some name /\
        forall members,
          lookup "model" members = Some (JStr id) ->
          exists request responseType,
            chat_completions (Some (JObj members)) = Post request responseType /\
            model request = Backend name.
Proof.
  eexists. split; [reflexivity|]. split; [reflexivity|].
  intros item Hin. unfold MODEL_MAPPING in Hin. cbn in Hin.
  repeat (destruct Hin as [<- | Hin];
          [eexists; eexists; split; [reflexivity|]; split; [reflexivity|];
           intros members Hm; eapply own_key_is_posted; [|exact Hm]; reflexivity|]).
  contradiction.
Qed.
